(** * systemUtils: system related functions of NVDA

    A shallow embedding of [source/systemUtils.py].  Every function of the
    module is a short sequence of calls into the operating system or into
    collaborator modules ([globalVars], [config], [shellapi], [winUser],
    [winKernel], [ctypes.windll], [comtypes.client]).  The calls are effects:
    the embedding threads an abstract world through them, asks a record of
    oracles what each call answers, and logs every call in a trace.  Python
    exceptions are an outcome of the monad next to the normal return. *)

From Stdlib Require Import ZArith List String Ascii Bool Lia.
Import ListNotations.
Open Scope string_scope.
Open Scope list_scope.
Open Scope Z_scope.

(** ** Python values and exceptions *)

(** A value that is either [None] or a [str]: what [configPath] and
    [getUserDefaultConfigPath] hold. *)
Inductive PyStr : Type :=
| PyNone
| PyS (s : string).

(** Python truthiness of such a value: [None] and [''] are falsy. *)
Definition truthy (p : PyStr) : bool :=
  match p with
  | PyNone => false
  | PyS EmptyString => false
  | PyS (String _ _) => true
  end.

(** Exceptions.  [ValueError] is the one the module raises itself;
    [OSError] is what [ctypes.WinError()] builds from the last error code;
    [External] is any other exception raised inside a collaborator, by the
    name of its class. *)
Inductive PyExc : Type :=
| ValueError (msg : string)
| OSError (winerror : Z)
| External (cls : string) (detail : string).

Definition exc_class (e : PyExc) : string :=
  match e with
  | ValueError _ => "ValueError"
  | OSError _ => "OSError"
  | External cls _ => cls
  end.

Definition exc_message (e : PyExc) : string :=
  match e with
  | ValueError msg => msg
  | OSError _ => ""
  | External _ detail => detail
  end.

(** What a call into a collaborator answers: a value or an exception. *)
Inductive Answer (A : Type) : Type :=
| Gives (a : A)
| Throws (e : PyExc).
Arguments Gives {A} a.
Arguments Throws {A} e.

(** Outcome of running a piece of code: it returned, it raised, or it is
    still inside a loop when the budget of loop rounds is used up. *)
Inductive Result (A : Type) : Type :=
| Return (a : A)
| Raise (e : PyExc)
| Pending.
Arguments Return {A} a.
Arguments Raise {A} e.
Arguments Pending {A}.

Definition outcome {A} (a : Answer A) : Result A :=
  match a with
  | Gives v => Return v
  | Throws e => Raise e
  end.

(** ** Structures and constants of the collaborators *)

(** The fields of [shellapi.SHELLEXECUTEINFO] that [execElevated] touches. *)
Record SHELLEXECUTEINFO : Type := mkSEI {
  lpFile : string;
  lpParameters : option string;
  nShow : Z;
  lpVerb : option string;
  fMask : Z;
  hProcess : Z
}.

(** Constants read from [winUser], [winKernel] and [shellapi]; their values
    are not part of this module, so they are parameters. *)
Record WinConstants : Type := mkConstants {
  SW_SHOWNORMAL : Z;
  SW_HIDE : Z;
  WM_QUIT : Z;
  MAXIMUM_ALLOWED : Z;
  SYNCHRONIZE : Z;
  PROCESS_TERMINATE : Z;
  SEE_MASK_NOCLOSEPROCESS : Z
}.

Definition TokenUIAccess : Z := 26.

(** [ctypes.sizeof(ctypes.wintypes.DWORD)]. *)
Definition sizeof_DWORD : Z := 4.

(** The value a [ctypes.wintypes.DWORD] holds after [v] is written to it. *)
Definition DWORD_value (v : Z) : Z := v mod 2 ^ 32.

(** ** The trace of calls *)

Inductive Event : Type :=
| Ev_configPath (attr : option PyStr)
| Ev_getUserDefaultConfigPath
| Ev_initConfigPath (path : PyStr)
| Ev_ShellExecute (hwnd : Z) (operation : option string) (file : PyStr)
                  (parameters directory : option string) (showCmd : Z)
| Ev_GetCurrentProcess
| Ev_OpenProcessToken (process access : Z) (ret : Z) (written : option Z)
| Ev_GetTokenInformation (token infoClass size : Z) (ret : Z)
                         (written : option Z)
| Ev_CloseHandle (h : Z)
| Ev_abspath (path : string)
| Ev_IsUserAnAdmin
| Ev_ShellExecuteEx (sei : SHELLEXECUTEINFO) (r : Answer Z)
| Ev_MsgWaitForMultipleObjects (h : Z) (timeout wakeMask : Z) (ret : Z)
| Ev_PeekMessageW (ret : Z)
| Ev_TranslateMessage
| Ev_DispatchMessageW
| Ev_GetExitCodeProcess (h : Z)
| Ev_closeHandle (h : Z)
| Ev_getWindowThreadProcessID (window : Z)
| Ev_PostMessage (window msg wParam lParam : Z)
| Ev_openProcess (access : Z) (inherit : bool) (processID : Z) (r : Answer Z)
| Ev_waitForSingleObject (h timeout : Z) (r : Answer Z)
| Ev_TerminateProcess (h exitCode : Z)
| Ev_WinError (code : Z)
| Ev_CoGetObject (moniker : string)
| Ev_ExecQuery (wmi : Z) (query : string)
| Ev_Count (processes : Z)
| Ev_ItemIndex_ProcessId (processes : Z) (i : Z).

(** ** The oracles

    What the world answers to each call.  A raw [ctypes.windll] function
    returns its C result and cannot raise; a function of a collaborator
    module can raise, so it answers with an [Answer]. *)
Record OS (W : Type) : Type := mkOS {
  (* globalVars.appArgs.configPath: None when the attribute is missing *)
  os_configPath : W -> option PyStr;
  os_getUserDefaultConfigPath : W -> Answer PyStr * W;
  os_initConfigPath : PyStr -> W -> Answer unit * W;
  os_ShellExecute :
    Z -> option string -> PyStr -> option string -> option string -> Z ->
    W -> Answer Z * W;
  os_GetCurrentProcess : W -> Z * W;
  (* result, and the handle written through the pointer, if any *)
  os_OpenProcessToken : Z -> Z -> W -> (Z * option Z) * W;
  (* result, and the value written to the output buffer, if any *)
  os_GetTokenInformation : Z -> Z -> Z -> W -> (Z * option Z) * W;
  os_CloseHandle : Z -> W -> Z * W;
  os_list2cmdline : list string -> string;
  os_abspath : string -> W -> string;
  os_IsUserAnAdmin : W -> Z * W;
  (* the process handle left in sei.hProcess *)
  os_ShellExecuteEx : SHELLEXECUTEINFO -> W -> Answer Z * W;
  os_MsgWaitForMultipleObjects : Z -> Z -> Z -> W -> Z * W;
  os_PeekMessageW : W -> Z * W;
  os_TranslateMessage : W -> Z * W;
  os_DispatchMessageW : W -> Z * W;
  os_GetExitCodeProcess : Z -> W -> Answer Z * W;
  os_closeHandle : Z -> W -> Answer Z * W;
  os_getWindowThreadProcessID : Z -> W -> Answer (Z * Z) * W;
  os_PostMessage : Z -> Z -> Z -> Z -> W -> Answer Z * W;
  os_openProcess : Z -> bool -> Z -> W -> Answer Z * W;
  os_waitForSingleObject : Z -> Z -> W -> Answer Z * W;
  os_TerminateProcess : Z -> Z -> W -> Answer Z * W;
  os_GetLastError : W -> Z;
  os_CoGetObject : string -> W -> Answer Z * W;
  os_ExecQuery : Z -> string -> W -> Answer Z * W;
  os_Count : Z -> W -> Answer Z * W;
  os_ItemIndex_ProcessId : Z -> Z -> W -> Answer Z * W
}.

(** ** The monad: world and trace passing, with exceptions *)

Record State (W : Type) : Type := mkState {
  world : W;
  trace : list Event
}.
Arguments mkState {W} world trace.
Arguments world {W} s.
Arguments trace {W} s.

Definition M (W A : Type) : Type := State W -> Result A * State W.

Definition ret {W A} (a : A) : M W A := fun s => (Return a, s).

Definition raise {W A} (e : PyExc) : M W A := fun s => (Raise e, s).

Definition pending {W A} : M W A := fun s => (Pending, s).

Definition bind {W A B} (m : M W A) (k : A -> M W B) : M W B :=
  fun s =>
    match m s with
    | (Return a, s') => k a s'
    | (Raise e, s') => (Raise e, s')
    | (Pending, s') => (Pending, s')
    end.

Notation "x <- m ;; k" := (bind m (fun x => k))
  (at level 61, m at next level, right associativity).
Notation "m ;;; k" := (bind m (fun _ => k))
  (at level 61, right associativity).

(** [try: body finally: fin].  The finally clause runs when the body
    returned and when it raised; an exception of the finally clause replaces
    the outcome of the body. *)
Definition try_finally {W A} (body : M W A) (fin : M W unit) : M W A :=
  fun s =>
    match body s with
    | (Pending, s') => (Pending, s')
    | (r, s') =>
        match fin s' with
        | (Return _, s'') => (r, s'')
        | (Raise e, s'') => (Raise e, s'')
        | (Pending, s'') => (Pending, s'')
        end
    end.

(** A call that can raise: log the event, move the world. *)
Definition call {W A} (ev : Event) (f : W -> Answer A * W) : M W A :=
  fun s =>
    let '(r, w') := f (world s) in
    (outcome r, mkState w' (trace s ++ [ev])).

(** A call whose event records the answer. *)
Definition call_logged {W A} (ev : Answer A -> Event)
    (f : W -> Answer A * W) : M W A :=
  fun s =>
    let '(r, w') := f (world s) in
    (outcome r, mkState w' (trace s ++ [ev r])).

(** A raw foreign call: it always returns. *)
Definition ccall {W A} (ev : Event) (f : W -> A * W) : M W A :=
  fun s =>
    let '(a, w') := f (world s) in
    (Return a, mkState w' (trace s ++ [ev])).

(** A raw foreign call whose event records the answer. *)
Definition ccall_logged {W A} (ev : A -> Event) (f : W -> A * W) : M W A :=
  fun s =>
    let '(a, w') := f (world s) in
    (Return a, mkState w' (trace s ++ [ev a])).

(** A read of the world that changes nothing. *)
Definition observe {W A} (ev : A -> Event) (f : W -> A) : M W A :=
  fun s =>
    let a := f (world s) in
    (Return a, mkState (world s) (trace s ++ [ev a])).

Definition start {W} (w : W) : State W := mkState w [].

(** The events logged between state [s] and a later state [s']. *)
Definition since {W} (s s' : State W) : list Event :=
  skipn (List.length (trace s)) (trace s').

(** An outcome that is an exception of class [cls] with message [msg]. *)
Definition raises_class {A} (r : Result A) (cls msg : string) : Prop :=
  exists e, r = Raise e /\ exc_class e = cls /\ exc_message e = msg.

(** ** Strings: [str.replace] and the query text *)

Definition backslash : string := String "092"%char EmptyString.
Definition quote : string := String "039"%char EmptyString.

Fixpoint is_prefix (p s : string) : bool :=
  match p, s with
  | EmptyString, _ => true
  | String a p', String b s' => Ascii.eqb a b && is_prefix p' s'
  | String _ _, EmptyString => false
  end.

(** [s.replace(old, new)] for a non-empty [old]: scan from the left, and at
    every occurrence of [old] emit [new] and skip the occurrence.  [skip]
    counts the characters of the current occurrence still to be dropped. *)
Fixpoint replace_from (old new : string) (skip : nat) (s : string) : string :=
  match s with
  | EmptyString => EmptyString
  | String c s' =>
      match skip with
      | S k => replace_from old new k s'
      | O =>
          if is_prefix old s
          then new ++ replace_from old new (Nat.pred (String.length old)) s'
          else String c (replace_from old new O s')
      end
  end.

Definition str_replace (old new s : string) : string :=
  replace_from old new O s.

(** [escapedName = name.replace("\\", r"\\")] *)
Definition escapedName (name : string) : string :=
  str_replace backslash (backslash ++ backslash) name.

(** The f-string handed to [ExecQuery]. *)
Definition query_text (name : string) : string :=
  "SELECT ProcessId FROM Win32_Process WHERE ExecutablePath = '"
    ++ escapedName name ++ "'".

(** The claim's wording of the escaping: every backslash doubled, every
    other character kept. *)
Fixpoint double_backslashes (s : string) : string :=
  match s with
  | EmptyString => EmptyString
  | String c s' =>
      if Ascii.eqb c "092"%char
      then String "092"%char (String "092"%char (double_backslashes s'))
      else String c (double_backslashes s')
  end.

(** [range(count)] *)
Definition range (count : Z) : list Z :=
  map Z.of_nat (seq 0 (Z.to_nat count)).

(** ** The functions of the module *)

Section SystemUtils.

Variable W : Type.
Variable os : OS W.
Variable K : WinConstants.

(** The elements of a generator, collected in order; the first exception
    ends the collection. *)
Fixpoint collect {A B} (f : A -> M W B) (l : list A) : M W (list B) :=
  match l with
  | [] => ret []
  | x :: l' =>
      v <- f x ;;
      vs <- collect f l' ;;
      ret (v :: vs)
  end.

(** [ctypes.WinError()]: an [OSError] built from the last error code.  The
    call only builds the exception object. *)
Definition WinError : M W PyExc :=
  code <- observe Ev_WinError (os_GetLastError W os) ;;
  ret (OSError code).

Definition openUserConfigurationDirectory : M W unit :=
  attr <- observe Ev_configPath (os_configPath W os) ;;
  path <-
    match attr with
    | Some p => ret p
    | None =>
        (* except AttributeError: *)
        path <- call Ev_getUserDefaultConfigPath
                  (os_getUserDefaultConfigPath W os) ;;
        (if negb (truthy path)
         then raise (ValueError "no user default config path")
         else ret tt) ;;;
        call (Ev_initConfigPath path) (os_initConfigPath W os path) ;;;
        ret path
    end ;;
  call (Ev_ShellExecute 0 None path None None (SW_SHOWNORMAL K))
    (os_ShellExecute W os 0 None path None None (SW_SHOWNORMAL K)) ;;;
  ret tt.

Definition hasUiAccess : M W bool :=
  let token0 := 0 in
  process <- ccall Ev_GetCurrentProcess (os_GetCurrentProcess W os) ;;
  opened <- ccall_logged
              (fun r => Ev_OpenProcessToken process (MAXIMUM_ALLOWED K)
                          (fst r) (snd r))
              (os_OpenProcessToken W os process (MAXIMUM_ALLOWED K)) ;;
  let token := match snd opened with Some h => h | None => token0 end in
  try_finally
    (let val0 := 0 in
     queried <- ccall_logged
                  (fun r => Ev_GetTokenInformation token TokenUIAccess
                              sizeof_DWORD (fst r) (snd r))
                  (os_GetTokenInformation W os token TokenUIAccess
                     sizeof_DWORD) ;;
     let val := match snd queried with
                | Some v => DWORD_value v
                | None => val0
                end in
     ret (negb (val =? 0)))
    (ccall (Ev_CloseHandle token) (os_CloseHandle W os token) ;;; ret tt).

(** The message pump of the wait path.  [drain] is the inner loop over
    [PeekMessageW], [pump] the outer loop over [MsgWaitForMultipleObjects];
    [fuel] bounds the number of rounds. *)
Fixpoint drain (fuel : nat) : M W unit :=
  match fuel with
  | O => pending
  | S fuel' =>
      got <- ccall_logged Ev_PeekMessageW (os_PeekMessageW W os) ;;
      if got =? 0 then ret tt
      else
        ccall Ev_TranslateMessage (os_TranslateMessage W os) ;;;
        ccall Ev_DispatchMessageW (os_DispatchMessageW W os) ;;;
        drain fuel'
  end.

Fixpoint pump (fuel : nat) (h : Z) : M W unit :=
  match fuel with
  | O => pending
  | S fuel' =>
      woke <- ccall_logged (Ev_MsgWaitForMultipleObjects h (-1) 255)
                (os_MsgWaitForMultipleObjects W os h (-1) 255) ;;
      if woke =? 1 then drain fuel' ;;; pump fuel' h
      else ret tt
  end.

Definition execElevated (fuel : nat) (path : string)
    (params : option (list string)) (wait handleAlreadyElevated : bool)
    : M W (option Z) :=
  let params := option_map (os_list2cmdline W os) params in
  file <- observe (fun _ => Ev_abspath path) (os_abspath W os path) ;;
  let sei := mkSEI file params (SW_HIDE K) None 0 0 in
  runas <- (if negb handleAlreadyElevated then ret true
            else
              admin <- ccall Ev_IsUserAnAdmin (os_IsUserAnAdmin W os) ;;
              ret (admin =? 0)) ;;
  let sei := if runas
             then mkSEI (lpFile sei) (lpParameters sei) (nShow sei)
                    (Some "runas") (fMask sei) (hProcess sei)
             else sei in
  let sei := if wait
             then mkSEI (lpFile sei) (lpParameters sei) (nShow sei)
                    (lpVerb sei) (SEE_MASK_NOCLOSEPROCESS K) (hProcess sei)
             else sei in
  hp <- call_logged (Ev_ShellExecuteEx sei) (os_ShellExecuteEx W os sei) ;;
  if wait then
    try_finally
      (pump fuel hp ;;;
       code <- call (Ev_GetExitCodeProcess hp)
                 (os_GetExitCodeProcess W os hp) ;;
       ret (Some code))
      (call (Ev_closeHandle hp) (os_closeHandle W os hp) ;;; ret tt)
  else ret None.

(** The statements of [execElevated] up to and including the call of
    [ShellExecuteEx]: the launch, answering the handle left in
    [sei.hProcess]. *)
Definition execElevated_launch (path : string)
    (params : option (list string)) (wait handleAlreadyElevated : bool)
    : M W Z :=
  let params := option_map (os_list2cmdline W os) params in
  file <- observe (fun _ => Ev_abspath path) (os_abspath W os path) ;;
  let sei := mkSEI file params (SW_HIDE K) None 0 0 in
  runas <- (if negb handleAlreadyElevated then ret true
            else
              admin <- ccall Ev_IsUserAnAdmin (os_IsUserAnAdmin W os) ;;
              ret (admin =? 0)) ;;
  let sei := if runas
             then mkSEI (lpFile sei) (lpParameters sei) (nShow sei)
                    (Some "runas") (fMask sei) (hProcess sei)
             else sei in
  let sei := if wait
             then mkSEI (lpFile sei) (lpParameters sei) (nShow sei)
                    (lpVerb sei) (SEE_MASK_NOCLOSEPROCESS K) (hProcess sei)
             else sei in
  call_logged (Ev_ShellExecuteEx sei) (os_ShellExecuteEx W os sei).

Definition forceTerminateProcess (processID : Z) : M W unit :=
  let access := Z.lor (PROCESS_TERMINATE K) (SYNCHRONIZE K) in
  h <- call_logged (Ev_openProcess access false processID)
         (os_openProcess W os access false processID) ;;
  (if h =? 0 then WinError ;;; ret tt else ret tt) ;;;
  try_finally
    (call (Ev_TerminateProcess h 1) (os_TerminateProcess W os h 1) ;;;
     call_logged (Ev_waitForSingleObject h 2000)
       (os_waitForSingleObject W os h 2000) ;;;
     ret tt)
    (call (Ev_closeHandle h) (os_closeHandle W os h) ;;; ret tt).

Definition terminateRunningNVDA (window : Z) : M W unit :=
  ids <- call (Ev_getWindowThreadProcessID window)
           (os_getWindowThreadProcessID W os window) ;;
  let processID := fst ids in
  call (Ev_PostMessage window (WM_QUIT K) 0 0)
    (os_PostMessage W os window (WM_QUIT K) 0 0) ;;;
  h <- call_logged (Ev_openProcess (SYNCHRONIZE K) false processID)
         (os_openProcess W os (SYNCHRONIZE K) false processID) ;;
  if h =? 0 then
    (* The process is already dead. *)
    ret tt
  else
    returned <-
      try_finally
        (res <- call_logged (Ev_waitForSingleObject h 4000)
                  (os_waitForSingleObject W os h 4000) ;;
         (* res == 0: the process terminated within the timeout period *)
         ret (res =? 0))
        (call (Ev_closeHandle h) (os_closeHandle W os h) ;;; ret tt) ;;
    if returned then ret tt
    else
      (* The process is refusing to exit gracefully, so kill it forcefully. *)
      forceTerminateProcess processID.

(** The element of the generator at index [i]:
    [processes.ItemIndex(i).Properties_['ProcessId'].Value]. *)
Definition item (processes : Z) (i : Z) : M W Z :=
  call (Ev_ItemIndex_ProcessId processes i)
    (os_ItemIndex_ProcessId W os processes i).

Definition getRunningProcessInstances (name : string) : M W (list Z) :=
  wmi <- call (Ev_CoGetObject "winmgmts:") (os_CoGetObject W os "winmgmts:") ;;
  let q := query_text name in
  processes <- call (Ev_ExecQuery wmi q) (os_ExecQuery W os wmi q) ;;
  count <- call (Ev_Count processes) (os_Count W os processes) ;;
  collect (item processes) (range count).

End SystemUtils.

(** ** Handle accounting on a trace *)

(** The handle an event hands to the caller, if it does: a token written by
    [OpenProcessToken], a process handle answered by [openProcess], the
    child's handle left by [ShellExecuteEx] when the mask asks to keep it. *)
Definition acquired (K : WinConstants) (e : Event) : option Z :=
  match e with
  | Ev_OpenProcessToken _ _ _ (Some h) => if h =? 0 then None else Some h
  | Ev_openProcess _ _ _ (Gives h) => if h =? 0 then None else Some h
  | Ev_ShellExecuteEx sei (Gives h) =>
      if (fMask sei =? SEE_MASK_NOCLOSEPROCESS K) && negb (h =? 0)
      then Some h else None
  | _ => None
  end.

Definition released (e : Event) : option Z :=
  match e with
  | Ev_CloseHandle h => Some h
  | Ev_closeHandle h => Some h
  | _ => None
  end.

Fixpoint remove_one (h : Z) (live : list Z) : option (list Z) :=
  match live with
  | [] => None
  | x :: live' =>
      if x =? h then Some live'
      else option_map (cons x) (remove_one h live')
  end.

(** Replay a trace on the list of handles that are open.  Closing the null
    handle changes nothing; closing a handle that is not open (a second
    close, or a handle never opened) is a fault: [None]. *)
Fixpoint replay (K : WinConstants) (live : list Z) (t : list Event)
    : option (list Z) :=
  match t with
  | [] => Some live
  | e :: t' =>
      match acquired K e with
      | Some h => replay K (h :: live) t'
      | None =>
          match released e with
          | Some h =>
              if h =? 0 then replay K live t'
              else
                match remove_one h live with
                | Some live' => replay K live' t'
                | None => None
                end
          | None => replay K live t'
          end
      end
  end.

(** Every handle the trace opens is closed exactly once, and nothing else
    is closed. *)
Definition balanced (K : WinConstants) (t : list Event) : Prop :=
  replay K [] t = Some [].

(** An event that neither opens nor closes a handle. *)
Definition is_neutral (K : WinConstants) (e : Event) : bool :=
  match acquired K e, released e with
  | None, None => true
  | _, _ => false
  end.

(** The statuses of a wait in the Win32 API: the object is signalled, the
    time is over. *)
Definition WAIT_OBJECT_0 : Z := 0.
Definition WAIT_TIMEOUT : Z := 258.

(** ** A scripted machine, to run the functions on *)

Module Fixture.

(** The values of the constants in the Win32 headers. *)
Definition Win32 : WinConstants := {|
  SW_SHOWNORMAL := 1;
  SW_HIDE := 0;
  WM_QUIT := 18;
  MAXIMUM_ALLOWED := 33554432;
  SYNCHRONIZE := 1048576;
  PROCESS_TERMINATE := 1;
  SEE_MASK_NOCLOSEPROCESS := 64
|}.

Record Machine : Type := mkMachine {
  m_configPath : option PyStr;
  m_defaultPath : PyStr;
  (* the token OpenProcessToken writes; None: the call fails *)
  m_token : option Z;
  (* the value GetTokenInformation writes; None: the call fails *)
  m_uiAccess : option Z;
  (* the handle openProcess answers for a process ID; 0: it cannot open *)
  m_handle : Z -> Z;
  (* the answer of waitForSingleObject on a handle *)
  m_waits : Z -> Answer Z;
  (* messages queued at each wake of the pump before the child exits *)
  m_wakes : list nat;
  m_queue : nat;
  m_child : Z;
  m_exitCode : Z;
  (* the ProcessId of each row WMI finds; None: the query is broken *)
  m_rows : option (list Z);
  m_lastError : Z
}.

Definition wake (m : Machine) (wakes : list nat) (queue : nat) : Machine :=
  mkMachine (m_configPath m) (m_defaultPath m) (m_token m) (m_uiAccess m)
    (m_handle m) (m_waits m) wakes queue (m_child m) (m_exitCode m)
    (m_rows m) (m_lastError m).

Definition os : OS Machine := {|
  os_configPath := m_configPath;
  os_getUserDefaultConfigPath := fun m => (Gives (m_defaultPath m), m);
  os_initConfigPath := fun _ m => (Gives tt, m);
  os_ShellExecute := fun _ _ _ _ _ _ m => (Gives 42, m);
  os_GetCurrentProcess := fun m => (-1, m);
  os_OpenProcessToken := fun _ _ m =>
    match m_token m with
    | Some h => ((1, Some h), m)
    | None => ((0, None), m)
    end;
  os_GetTokenInformation := fun token _ _ m =>
    if token =? 0 then ((0, None), m)
    else match m_uiAccess m with
         | Some v => ((1, Some v), m)
         | None => ((0, None), m)
         end;
  os_CloseHandle := fun h m => (if h =? 0 then 0 else 1, m);
  (* arguments that need no quoting are joined with spaces *)
  os_list2cmdline := String.concat " ";
  os_abspath := fun p _ => p;
  os_IsUserAnAdmin := fun m => (0, m);
  os_ShellExecuteEx := fun sei m =>
    (Gives (if fMask sei =? 64 then m_child m else 0), m);
  os_MsgWaitForMultipleObjects := fun _ _ _ m =>
    match m_wakes m with
    | [] => (0, m)
    | n :: rest => (1, wake m rest n)
    end;
  os_PeekMessageW := fun m =>
    match m_queue m with
    | O => (0, m)
    | S n => (1, wake m (m_wakes m) n)
    end;
  os_TranslateMessage := fun m => (1, m);
  os_DispatchMessageW := fun m => (0, m);
  os_GetExitCodeProcess := fun _ m => (Gives (m_exitCode m), m);
  os_closeHandle := fun h m => (Gives (if h =? 0 then 0 else 1), m);
  os_getWindowThreadProcessID := fun window m => (Gives (window * 10, 1), m);
  os_PostMessage := fun _ _ _ _ m => (Gives 1, m);
  os_openProcess := fun _ _ pid m => (Gives (m_handle m pid), m);
  os_waitForSingleObject := fun h _ m => (m_waits m h, m);
  os_TerminateProcess := fun h _ m => (Gives (if h =? 0 then 0 else 1), m);
  os_GetLastError := m_lastError;
  os_CoGetObject := fun _ m => (Gives 1, m);
  os_ExecQuery := fun _ _ m => (Gives 2, m);
  os_Count := fun _ m =>
    match m_rows m with
    | Some rows => (Gives (Z.of_nat (List.length rows)), m)
    | None => (Throws (External "COMError" "invalid query"), m)
    end;
  os_ItemIndex_ProcessId := fun _ i m =>
    match m_rows m with
    | Some rows => (Gives (nth (Z.to_nat i) rows 0), m)
    | None => (Throws (External "COMError" "invalid query"), m)
    end
|}.

(** A machine on which everything works: the NVDA slave, without
    [configPath]; a live process 70 under handle 700 that exits when asked;
    a child that exits with code 7 after two wakes of the pump. *)
Definition healthy : Machine := {|
  m_configPath := None;
  m_defaultPath := PyS "C:/Users/u/AppData/Roaming/nvda";
  m_token := Some 500;
  m_uiAccess := Some 1;
  m_handle := fun pid => if pid =? 70 then 700 else 0;
  m_waits := fun h => if h =? 0 then Throws (OSError 6) else Gives 0;
  m_wakes := [2%nat; 1%nat];
  m_queue := 0%nat;
  m_child := 900;
  m_exitCode := 7;
  m_rows := Some [812; 4020];
  m_lastError := 87
|}.

(** The process ignores the quit message: every wait times out. *)
Definition stubborn : Machine :=
  mkMachine (m_configPath healthy) (m_defaultPath healthy) (m_token healthy)
    (m_uiAccess healthy) (m_handle healthy)
    (fun h => if h =? 0 then Throws (OSError 6) else Gives WAIT_TIMEOUT)
    (m_wakes healthy) (m_queue healthy) (m_child healthy)
    (m_exitCode healthy) (m_rows healthy) (m_lastError healthy).

(** No process can be opened, and the wrappers answer a failed wait on the
    null handle with its status instead of an exception. *)
Definition lenient : Machine :=
  mkMachine (m_configPath healthy) (m_defaultPath healthy) (m_token healthy)
    (m_uiAccess healthy) (fun _ => 0) (fun _ => Gives (-1))
    (m_wakes healthy) (m_queue healthy) (m_child healthy)
    (m_exitCode healthy) (m_rows healthy) (m_lastError healthy).

(** No default configuration path, and no security token to open. *)
Definition bare : Machine :=
  mkMachine None PyNone None (m_uiAccess healthy) (m_handle healthy)
    (m_waits healthy) (m_wakes healthy) (m_queue healthy) (m_child healthy)
    (m_exitCode healthy) (m_rows healthy) (m_lastError healthy).

(** [configPath] exists and is empty. *)
Definition blank : Machine :=
  mkMachine (Some (PyS "")) (m_defaultPath healthy) (m_token healthy)
    None (m_handle healthy) (m_waits healthy) (m_wakes healthy)
    (m_queue healthy) (m_child healthy) (m_exitCode healthy) None
    (m_lastError healthy).

(** A path with backslashes. *)
Definition foo_exe : string :=
  "C:" ++ backslash ++ "app" ++ backslash ++ "foo.exe".

(** The state after the launch of the slave with [wait]. *)
Definition launched : State Machine :=
  snd (execElevated_launch Machine os Win32 "nvda_slave.exe"
         (Some ["--install"; "--silent"]) true false
         (start healthy)).

(** The state when the pump is over: two wakes for messages, then the
    child's handle is signalled. *)
Definition signalled : State Machine :=
  snd (pump Machine os 4 900 launched).

End Fixture.

(** ** Reading the run of the message pump *)

(** The events of the inner loop: the queue is peeked and drained. *)
Definition is_queue_event (e : Event) : bool :=
  match e with
  | Ev_PeekMessageW _ => true
  | Ev_TranslateMessage => true
  | Ev_DispatchMessageW => true
  | _ => false
  end.

(** A wake of the outer loop on handle [h] for a pending message. *)
Definition is_message_wake (h : Z) (e : Event) : bool :=
  match e with
  | Ev_MsgWaitForMultipleObjects h' timeout mask woke =>
      (h' =? h) && (timeout =? -1) && (mask =? 255) && (woke =? 1)
  | _ => false
  end.

Definition is_pump_event (h : Z) (e : Event) : bool :=
  is_queue_event e || is_message_wake h e.

(** ** Reading the run of [hasUiAccess] *)

(** The token the function holds after [OpenProcessToken]: the handle
    written through the pointer, else the null handle [HANDLE()] started
    with. *)
Definition token_after (written : option Z) : Z :=
  match written with
  | Some h => h
  | None => 0
  end.

(** [bool(val.value)] after the query. *)
Definition flag_after (written : option Z) : bool :=
  match written with
  | Some v => negb (DWORD_value v =? 0)
  | None => false
  end.

(** ** Reading the escaping *)

Fixpoint count_backslashes (s : string) : nat :=
  match s with
  | EmptyString => O
  | String c s' =>
      if Ascii.eqb c "092"%char then S (count_backslashes s')
      else count_backslashes s'
  end.

(** The events of draining the messages whose [PeekMessageW] answers are
    [answers]: each is peeked, translated and dispatched. *)
Definition drained (answers : list Z) : list Event :=
  flat_map
    (fun got => [Ev_PeekMessageW got; Ev_TranslateMessage;
                 Ev_DispatchMessageW])
    answers.

(** The events of the rounds of the pump on handle [h]: at each round the
    wait wakes for a message, the messages of the round are drained, and
    [PeekMessageW] finds the queue empty. *)
Definition pumped (h : Z) (rounds : list (list Z)) : list Event :=
  flat_map
    (fun answers =>
       [Ev_MsgWaitForMultipleObjects h (-1) 255 1] ++ drained answers
         ++ [Ev_PeekMessageW 0])
    rounds.

(** ** What the system answers while a child runs

    Conditions on the oracles alone: they say what the system answers along
    the rounds of a wait, and give the world it is left in ([None] when it
    answers otherwise). *)

Section Scripts.

Variable W : Type.
Variable os : OS W.

(** From world [w] on, [PeekMessageW] reports the messages [answers], each
    of which is translated and dispatched, and then reports an empty
    queue. *)
Fixpoint queue_answers (answers : list Z) (w : W) : option W :=
  match answers with
  | [] =>
      let '(got, w1) := os_PeekMessageW W os w in
      if got =? 0 then Some w1 else None
  | a :: rest =>
      let '(got, w1) := os_PeekMessageW W os w in
      if (got =? a) && negb (a =? 0) then
        let '(_, w2) := os_TranslateMessage W os w1 in
        let '(_, w3) := os_DispatchMessageW W os w2 in
        queue_answers rest w3
      else None
  end.

(** From world [w] on, the wait on handle [h] wakes for messages once per
    element of [rounds], the queue holding these messages each time, and
    then reports the handle signalled: the child has exited. *)
Fixpoint child_signals (h : Z) (rounds : list (list Z)) (w : W)
    : option W :=
  match rounds with
  | [] =>
      let '(woke, w1) := os_MsgWaitForMultipleObjects W os h (-1) 255 w in
      if woke =? WAIT_OBJECT_0 then Some w1 else None
  | answers :: rest =>
      let '(woke, w1) := os_MsgWaitForMultipleObjects W os h (-1) 255 w in
      if woke =? 1 then
        match queue_answers answers w1 with
        | Some w2 => child_signals h rest w2
        | None => None
        end
      else None
  end.

End Scripts.

(** The most messages a round holds. *)
Definition longest_round (rounds : list (list Z)) : nat :=
  fold_right Nat.max 0%nat (map (@List.length Z) rounds).

(** A budget of loop rounds that is enough to go through [rounds]. *)
Definition rounds_budget (rounds : list (list Z)) : nat :=
  (List.length rounds + S (longest_round rounds))%nat.

(** The events after the launch on the path that waits: the pump, the
    exit code, the close. *)
Definition is_wait_path_event (e : Event) : bool :=
  match e with
  | Ev_MsgWaitForMultipleObjects _ _ _ _ => true
  | Ev_PeekMessageW _ => true
  | Ev_TranslateMessage => true
  | Ev_DispatchMessageW => true
  | Ev_GetExitCodeProcess _ => true
  | Ev_closeHandle _ => true
  | _ => false
  end.

(** ** Scripted machines on which one call is refused *)

Module Faults.

Import Fixture.

Inductive Fault : Type :=
| F_initConfigPath
| F_ShellExecuteEx
| F_TerminateProcess
| F_PostMessage
| F_closeHandle.

Definition fault_eqb (a b : Fault) : bool :=
  match a, b with
  | F_initConfigPath, F_initConfigPath => true
  | F_ShellExecuteEx, F_ShellExecuteEx => true
  | F_TerminateProcess, F_TerminateProcess => true
  | F_PostMessage, F_PostMessage => true
  | F_closeHandle, F_closeHandle => true
  | _, _ => false
  end.

(** Access is denied. *)
Definition denied : PyExc := OSError 5.

Definition failing {A} (hit : bool) (o : Machine -> Answer A * Machine)
    : Machine -> Answer A * Machine :=
  fun m => if hit then (Throws denied, m) else o m.

(** The scripted machine, with the call [f] raising [denied]. *)
Definition faulty (f : Fault) : OS Machine := {|
  os_configPath := os_configPath Machine os;
  os_getUserDefaultConfigPath := os_getUserDefaultConfigPath Machine os;
  os_initConfigPath := fun p =>
    failing (fault_eqb f F_initConfigPath) (os_initConfigPath Machine os p);
  os_ShellExecute := os_ShellExecute Machine os;
  os_GetCurrentProcess := os_GetCurrentProcess Machine os;
  os_OpenProcessToken := os_OpenProcessToken Machine os;
  os_GetTokenInformation := os_GetTokenInformation Machine os;
  os_CloseHandle := os_CloseHandle Machine os;
  os_list2cmdline := os_list2cmdline Machine os;
  os_abspath := os_abspath Machine os;
  os_IsUserAnAdmin := os_IsUserAnAdmin Machine os;
  os_ShellExecuteEx := fun sei =>
    failing (fault_eqb f F_ShellExecuteEx) (os_ShellExecuteEx Machine os sei);
  os_MsgWaitForMultipleObjects := os_MsgWaitForMultipleObjects Machine os;
  os_PeekMessageW := os_PeekMessageW Machine os;
  os_TranslateMessage := os_TranslateMessage Machine os;
  os_DispatchMessageW := os_DispatchMessageW Machine os;
  os_GetExitCodeProcess := os_GetExitCodeProcess Machine os;
  os_closeHandle := fun h =>
    failing (fault_eqb f F_closeHandle) (os_closeHandle Machine os h);
  os_getWindowThreadProcessID := os_getWindowThreadProcessID Machine os;
  os_PostMessage := fun window msg wParam lParam =>
    failing (fault_eqb f F_PostMessage)
      (os_PostMessage Machine os window msg wParam lParam);
  os_openProcess := os_openProcess Machine os;
  os_waitForSingleObject := os_waitForSingleObject Machine os;
  os_TerminateProcess := fun h code =>
    failing (fault_eqb f F_TerminateProcess)
      (os_TerminateProcess Machine os h code);
  os_GetLastError := os_GetLastError Machine os;
  os_CoGetObject := os_CoGetObject Machine os;
  os_ExecQuery := os_ExecQuery Machine os;
  os_Count := os_Count Machine os;
  os_ItemIndex_ProcessId := os_ItemIndex_ProcessId Machine os
|}.

(** Two messages are waiting in the queue. *)
Definition queued : Machine := wake healthy [] 2.

End Faults.

(** * Properties *)

(** ** Traces *)

Lemma since_app {W} (s s' : State W) (d : list Event) :
  trace s' = trace s ++ d -> since s s' = d.
Proof.
  intros E. unfold since. rewrite E. clear E.
  generalize (trace s). intros t.
  induction t as [|e t IH]; simpl; auto.
Qed.

Lemma bind_Return {W A B} (m : M W A) (k : A -> M W B) (s s1 : State W)
    (a : A) :
  m s = (Return a, s1) -> bind m k s = k a s1.
Proof. intros E. unfold bind. rewrite E. reflexivity. Qed.

Lemma bind_Raise {W A B} (m : M W A) (k : A -> M W B) (s s1 : State W)
    (e : PyExc) :
  m s = (Raise e, s1) -> bind m k s = (Raise e, s1).
Proof. intros E. unfold bind. rewrite E. reflexivity. Qed.

Lemma call_Gives {W A} (ev : Event) (f : W -> Answer A * W) (s : State W)
    (a : A) (w' : W) :
  f (world s) = (Gives a, w') ->
  call ev f s = (Return a, mkState w' (trace s ++ [ev])).
Proof. intros E. unfold call. rewrite E. reflexivity. Qed.

Lemma call_Throws {W A} (ev : Event) (f : W -> Answer A * W) (s : State W)
    (e : PyExc) (w' : W) :
  f (world s) = (Throws e, w') ->
  call ev f s = (Raise e, mkState w' (trace s ++ [ev])).
Proof. intros E. unfold call. rewrite E. reflexivity. Qed.

Ltac unfold_monad :=
  unfold bind, ret, raise, pending, call, call_logged, ccall, ccall_logged,
    observe, try_finally, outcome in *.

(** Name the answer of the next call of a collaborator, by cases. *)
Ltac oracle :=
  match goal with
  | |- context [match ?c with (_, _) => _ end] =>
      lazymatch c with
      | context [match _ with _ => _ end] => fail
      | _ => destruct c as [[?|?] ?] eqn:?
      end
  end; simpl.

Tactic Notation "oracle" "as" ident(v) ident(e) ident(w) :=
  match goal with
  | |- context [match ?c with (_, _) => _ end] =>
      lazymatch c with
      | context [match _ with _ => _ end] => fail
      | _ => destruct c as [[v|e] w] eqn:?
      end
  end; simpl.

Ltac trace_eq := simpl; repeat rewrite <- app_assoc; simpl; reflexivity.

Lemma replay_app (K : WinConstants) (t1 t2 : list Event) :
  forall live,
    replay K live (t1 ++ t2) =
    match replay K live t1 with
    | Some live' => replay K live' t2
    | None => None
    end.
Proof.
  induction t1 as [|e t1 IH]; intros live; simpl; [reflexivity|].
  destruct (acquired K e); [apply IH|].
  destruct (released e) as [h|]; [|apply IH].
  destruct (h =? 0); [apply IH|].
  destruct (remove_one h live); [apply IH|reflexivity].
Qed.

Lemma replay_neutral (K : WinConstants) (d : list Event) :
  forall live, forallb (is_neutral K) d = true -> replay K live d = Some live.
Proof.
  induction d as [|e d IH]; intros live H; simpl in *; [reflexivity|].
  apply andb_true_iff in H. destruct H as [He Hd].
  unfold is_neutral in He.
  destruct (acquired K e); [discriminate|].
  destruct (released e); [discriminate|].
  apply IH. exact Hd.
Qed.

Lemma queue_event_pump (h : Z) (d : list Event) :
  forallb is_queue_event d = true -> forallb (is_pump_event h) d = true.
Proof.
  induction d as [|e d IH]; simpl; [reflexivity|].
  intros H. apply andb_true_iff in H. destruct H as [He Hd].
  unfold is_pump_event at 1. rewrite He. simpl. apply IH. exact Hd.
Qed.

Lemma pump_event_neutral (K : WinConstants) (h : Z) (d : list Event) :
  forallb (is_pump_event h) d = true -> forallb (is_neutral K) d = true.
Proof.
  induction d as [|e d IH]; simpl; [reflexivity|].
  intros H. apply andb_true_iff in H. destruct H as [He Hd].
  rewrite (IH Hd), andb_true_r.
  destruct e; simpl in He; try discriminate; reflexivity.
Qed.

Section Properties.

Variable W : Type.
Variable os : OS W.
Variable K : WinConstants.

(** ** openUserConfigurationDirectory *)

(** C2, as amended: when [configPath] is missing from the argument context
    and the configuration subsystem answers a falsy default path, the call
    raises the built-in [ValueError] with the message
    "no user default config path"; neither [initConfigPath] nor
    [ShellExecute] is called. *)
Theorem openUserConfigurationDirectory_no_default_path :
  forall (s : State W) (p : PyStr) (w1 : W),
    os_configPath W os (world s) = None ->
    os_getUserDefaultConfigPath W os (world s) = (Gives p, w1) ->
    truthy p = false ->
    openUserConfigurationDirectory W os K s =
      (Raise (ValueError "no user default config path"),
       mkState w1
         (trace s ++ [Ev_configPath None; Ev_getUserDefaultConfigPath]))
    /\ raises_class (fst (openUserConfigurationDirectory W os K s))
         "ValueError" "no user default config path".
Proof.
  intros s p w1 Hattr Hdef Hfalsy.
  assert (E : openUserConfigurationDirectory W os K s =
      (Raise (ValueError "no user default config path"),
       mkState w1
         (trace s ++ [Ev_configPath None; Ev_getUserDefaultConfigPath]))).
  { unfold openUserConfigurationDirectory. unfold_monad. simpl.
    rewrite Hattr. simpl. rewrite Hdef. simpl. rewrite Hfalsy. simpl.
    f_equal. f_equal. trace_eq. }
  split; [exact E|].
  rewrite E. exists (ValueError "no user default config path"). auto.
Qed.


(** ** hasUiAccess *)

(** The whole run of [hasUiAccess]: four raw calls, none of which is
    checked, and the boolean of the queried value. *)
Lemma hasUiAccess_run (s : State W) :
  exists process w1 oret otoken w2 qret qval w3 cret w4,
    os_GetCurrentProcess W os (world s) = (process, w1) /\
    os_OpenProcessToken W os process (MAXIMUM_ALLOWED K) w1 =
      ((oret, otoken), w2) /\
    os_GetTokenInformation W os (token_after otoken) TokenUIAccess
      sizeof_DWORD w2 = ((qret, qval), w3) /\
    os_CloseHandle W os (token_after otoken) w3 = (cret, w4) /\
    hasUiAccess W os K s =
      (Return (flag_after qval),
       mkState w4
         (trace s ++
          [Ev_GetCurrentProcess;
           Ev_OpenProcessToken process (MAXIMUM_ALLOWED K) oret otoken;
           Ev_GetTokenInformation (token_after otoken) TokenUIAccess
             sizeof_DWORD qret qval;
           Ev_CloseHandle (token_after otoken)])).
Proof.
  destruct (os_GetCurrentProcess W os (world s)) as [process w1] eqn:E1.
  destruct (os_OpenProcessToken W os process (MAXIMUM_ALLOWED K) w1)
    as [[oret otoken] w2] eqn:E2.
  destruct (os_GetTokenInformation W os (token_after otoken) TokenUIAccess
              sizeof_DWORD w2) as [[qret qval] w3] eqn:E3.
  destruct (os_CloseHandle W os (token_after otoken) w3) as [cret w4] eqn:E4.
  exists process, w1, oret, otoken, w2, qret, qval, w3, cret, w4.
  repeat split; auto.
  unfold hasUiAccess. unfold_monad. simpl. rewrite E1. simpl.
  rewrite E2. simpl. fold (token_after otoken). rewrite E3. simpl.
  rewrite E4. simpl. f_equal.
  - destruct qval; reflexivity.
  - f_equal. trace_eq.
Qed.

(** C8: whatever the open of the token answered, when the token
    information query writes nothing into the 4-byte value, [hasUiAccess]
    does not raise: it returns [False] (the value starts at zero and the
    result of the query is not looked at), after closing the token it
    holds. *)
Theorem hasUiAccess_failed_query_returns_False :
  forall (s : State W) (process oret qret : Z) (otoken : option Z)
         (w1 w2 w3 : W),
    os_GetCurrentProcess W os (world s) = (process, w1) ->
    os_OpenProcessToken W os process (MAXIMUM_ALLOWED K) w1 =
      ((oret, otoken), w2) ->
    os_GetTokenInformation W os (token_after otoken) TokenUIAccess
      sizeof_DWORD w2 = ((qret, None), w3) ->
    fst (hasUiAccess W os K s) = Return false
    /\ since s (snd (hasUiAccess W os K s)) =
         [Ev_GetCurrentProcess;
          Ev_OpenProcessToken process (MAXIMUM_ALLOWED K) oret otoken;
          Ev_GetTokenInformation (token_after otoken) TokenUIAccess
            sizeof_DWORD qret None;
          Ev_CloseHandle (token_after otoken)].
Proof.
  intros s process oret qret otoken w1 w2 w3 E1 E2 E3.
  destruct (hasUiAccess_run s)
    as (process' & w1' & oret' & otoken' & w2' & qret' & qval' & w3' & cret
        & w4 & F1 & F2 & F3 & _ & E).
  rewrite E1 in F1. inversion F1; subst process' w1'.
  rewrite E2 in F2. inversion F2; subst oret' otoken' w2'.
  rewrite E3 in F3. inversion F3; subst qret' qval' w3'.
  rewrite E. simpl. split; [reflexivity|].
  apply since_app. reflexivity.
Qed.

(** C3, as amended: when opening the token fails ([OpenProcessToken]
    answers 0 and writes no handle), nothing is raised: the result of the
    open is dropped, the query runs on the null token, the function returns
    the boolean of the 4-byte value ([False] when the query writes nothing)
    and calls [CloseHandle] on the null token. *)
Theorem hasUiAccess_open_failure_not_propagated :
  forall (s : State W) (process : Z) (w1 w2 w3 : W) (qret : Z)
         (qval : option Z),
    os_GetCurrentProcess W os (world s) = (process, w1) ->
    os_OpenProcessToken W os process (MAXIMUM_ALLOWED K) w1 =
      ((0, None), w2) ->
    os_GetTokenInformation W os 0 TokenUIAccess sizeof_DWORD w2 =
      ((qret, qval), w3) ->
    fst (hasUiAccess W os K s) = Return (flag_after qval)
    /\ since s (snd (hasUiAccess W os K s)) =
         [Ev_GetCurrentProcess;
          Ev_OpenProcessToken process (MAXIMUM_ALLOWED K) 0 None;
          Ev_GetTokenInformation 0 TokenUIAccess sizeof_DWORD qret qval;
          Ev_CloseHandle 0].
Proof.
  intros s process w1 w2 w3 qret qval E1 E2 E3.
  destruct (hasUiAccess_run s)
    as (process' & w1' & oret & otoken & w2' & qret' & qval' & w3' & cret
        & w4 & F1 & F2 & F3 & _ & E).
  rewrite E1 in F1. inversion F1; subst process' w1'.
  rewrite E2 in F2. inversion F2; subst oret otoken w2'.
  simpl in F3. rewrite E3 in F3. inversion F3; subst qret' qval' w3'.
  rewrite E. simpl. split; [reflexivity|].
  apply since_app. reflexivity.
Qed.

(** ** forceTerminateProcess *)

(** C1, what the code does: when [openProcess] answers the null handle,
    [ctypes.WinError()] only builds the error object, and the function goes
    on with the null handle: it calls [TerminateProcess(0, 1)],
    [waitForSingleObject(0, 2000)] and [closeHandle(0)], and where these
    answer without an exception it returns normally. *)
Theorem forceTerminateProcess_open_failure_not_raised :
  forall (s : State W) (processID : Z) (w1 w2 w3 w4 : W) (t r c : Z),
    let access := Z.lor (PROCESS_TERMINATE K) (SYNCHRONIZE K) in
    os_openProcess W os access false processID (world s) = (Gives 0, w1) ->
    os_TerminateProcess W os 0 1 w1 = (Gives t, w2) ->
    os_waitForSingleObject W os 0 2000 w2 = (Gives r, w3) ->
    os_closeHandle W os 0 w3 = (Gives c, w4) ->
    forceTerminateProcess W os K processID s =
      (Return tt,
       mkState w4
         (trace s ++
          [Ev_openProcess access false processID (Gives 0);
           Ev_WinError (os_GetLastError W os w1);
           Ev_TerminateProcess 0 1;
           Ev_waitForSingleObject 0 2000 (Gives r);
           Ev_closeHandle 0])).
Proof.
  intros s processID w1 w2 w3 w4 t r c access E1 E2 E3 E4.
  unfold forceTerminateProcess. fold access. unfold WinError.
  unfold_monad. simpl. rewrite E1. simpl. rewrite E2. simpl.
  rewrite E3. simpl. rewrite E4. simpl. f_equal. f_equal. trace_eq.
Qed.

(** The events of any run of [forceTerminateProcess] open at most one
    handle and close it once. *)
Lemma forceTerminateProcess_balanced (processID : Z) (s : State W) :
  exists d,
    trace (snd (forceTerminateProcess W os K processID s)) = trace s ++ d
    /\ balanced K d.
Proof.
  unfold forceTerminateProcess, WinError, balanced. unfold_monad. simpl.
  oracle as h e1 w1.
  - destruct (h =? 0) eqn:Hnull; simpl.
    + apply Z.eqb_eq in Hnull. subst h.
      repeat oracle; eexists; (split; [trace_eq | reflexivity]).
    + repeat oracle; eexists;
        (split; [trace_eq | simpl; rewrite ?Hnull; simpl;
                            rewrite ?Z.eqb_refl; reflexivity]).
  - eexists. split; [trace_eq | reflexivity].
Qed.

(** ** terminateRunningNVDA *)

(** C4: after the quit message is posted, [terminateRunningNVDA] returns
    at once when no handle to the owning process can be opened; with a
    handle, it waits 4000 ms and closes the handle, then returns when the
    wait answered 0 (the process signalled), raises what the wait raised,
    and in the remaining case (the wait returned without the signal: it
    timed out) the rest of the run is [forceTerminateProcess] on the owning
    process ID.  In the first two cases the run ends with the events shown:
    no forced termination follows. *)
Theorem terminateRunningNVDA_escalates_only_after_the_wait :
  forall (s : State W) (window : Z) (ids : Z * Z) (w1 w2 w3 : W)
         (posted h : Z),
    let processID := fst ids in
    let opened :=
      trace s ++
      [Ev_getWindowThreadProcessID window;
       Ev_PostMessage window (WM_QUIT K) 0 0;
       Ev_openProcess (SYNCHRONIZE K) false processID (Gives h)] in
    os_getWindowThreadProcessID W os window (world s) = (Gives ids, w1) ->
    os_PostMessage W os window (WM_QUIT K) 0 0 w1 = (Gives posted, w2) ->
    os_openProcess W os (SYNCHRONIZE K) false processID w2 = (Gives h, w3) ->
    (h = 0 ->
     terminateRunningNVDA W os K window s = (Return tt, mkState w3 opened))
    /\ (h <> 0 ->
        forall (r : Answer Z) (w4 w5 : W) (c : Z),
          os_waitForSingleObject W os h 4000 w3 = (r, w4) ->
          os_closeHandle W os h w4 = (Gives c, w5) ->
          let waited :=
            mkState w5
              (opened ++
               [Ev_waitForSingleObject h 4000 r; Ev_closeHandle h]) in
          terminateRunningNVDA W os K window s =
            match r with
            | Gives res =>
                if res =? WAIT_OBJECT_0 then (Return tt, waited)
                else forceTerminateProcess W os K processID waited
            | Throws e => (Raise e, waited)
            end).
Proof.
  intros s window ids w1 w2 w3 posted h processID opened E1 E2 E3.
  split.
  - intros Hnull. subst h.
    unfold terminateRunningNVDA. unfold_monad. simpl.
    rewrite E1. simpl. fold processID. rewrite E2. simpl.
    rewrite E3. simpl. f_equal. f_equal. subst opened. trace_eq.
  - intros Hopen r w4 w5 c E4 E5 waited.
    apply Z.eqb_neq in Hopen.
    unfold terminateRunningNVDA. unfold_monad. simpl.
    rewrite E1. simpl. fold processID. rewrite E2. simpl.
    rewrite E3. simpl. rewrite Hopen. simpl. rewrite E4. simpl.
    assert (Et : ((((trace s ++ [Ev_getWindowThreadProcessID window]) ++
                    [Ev_PostMessage window (WM_QUIT K) 0 0]) ++
                   [Ev_openProcess (SYNCHRONIZE K) false processID (Gives h)])
                  ++ [Ev_waitForSingleObject h 4000 r]) ++ [Ev_closeHandle h]
                 = trace waited).
    { subst waited opened. trace_eq. }
    destruct r as [res|e]; simpl; rewrite E5; simpl; rewrite Et.
    + unfold WAIT_OBJECT_0. destruct (res =? 0); reflexivity.
    + reflexivity.
Qed.

(** The events of any run of [terminateRunningNVDA] open and close
    handles in turn: the one waited on, then the one of the forced
    termination. *)
Lemma terminateRunningNVDA_balanced (window : Z) (s : State W) :
  exists d,
    trace (snd (terminateRunningNVDA W os K window s)) = trace s ++ d
    /\ balanced K d.
Proof.
  unfold terminateRunningNVDA, balanced. unfold_monad. simpl.
  oracle as ids e1 w1; [|eexists; split; [trace_eq|reflexivity]].
  oracle as posted e2 w2; [|eexists; split; [trace_eq|reflexivity]].
  oracle as h e3 w3; [|eexists; split; [trace_eq|reflexivity]].
  destruct (h =? 0) eqn:Hnull; simpl.
  { eexists. split; [trace_eq|]. simpl. rewrite Hnull. reflexivity. }
  oracle as res e4 w4; oracle as c e5 w5;
    try (eexists; (split; [trace_eq|]); simpl; rewrite ?Hnull; simpl;
         rewrite ?Z.eqb_refl; reflexivity).
  destruct (res =? 0); simpl.
  { eexists. split; [trace_eq|]. simpl. rewrite ?Hnull. simpl.
    rewrite ?Z.eqb_refl. reflexivity. }
  match goal with
  | |- context [forceTerminateProcess W os K ?p ?st] =>
      destruct (forceTerminateProcess_balanced p st) as [d [Ed Bd]];
      rewrite Ed
  end.
  simpl. eexists. split; [repeat rewrite <- app_assoc; simpl; reflexivity|].
  change (replay K []
            ([Ev_getWindowThreadProcessID window;
              Ev_PostMessage window (WM_QUIT K) 0 0;
              Ev_openProcess (SYNCHRONIZE K) false (fst ids) (Gives h);
              Ev_waitForSingleObject h 4000 (Gives res);
              Ev_closeHandle h] ++ d) = Some []).
  rewrite replay_app. simpl. rewrite ?Hnull. simpl.
  rewrite ?Z.eqb_refl. exact Bd.
Qed.

(** ** execElevated *)

Lemma execElevated_split (n : nat) (path : string)
    (params : option (list string)) (wait hae : bool) (s : State W) :
  execElevated W os K n path params wait hae s =
  (hp <- execElevated_launch W os K path params wait hae ;;
   if wait then
     try_finally
       (pump W os n hp ;;;
        code <- call (Ev_GetExitCodeProcess hp)
                  (os_GetExitCodeProcess W os hp) ;;
        ret (Some code))
       (call (Ev_closeHandle hp) (os_closeHandle W os hp) ;;; ret tt)
   else ret None) s.
Proof.
  unfold execElevated, execElevated_launch. unfold_monad. simpl.
  destruct hae; simpl.
  - destruct (os_IsUserAnAdmin W os (world s)) as [admin w1]; simpl.
    destruct (admin =? 0); simpl;
      match goal with
      | |- context [os_ShellExecuteEx W os ?sei ?w] =>
          destruct (os_ShellExecuteEx W os sei w) as [[hp|e] w2]
      end; reflexivity.
  - match goal with
    | |- context [os_ShellExecuteEx W os ?sei ?w] =>
        destruct (os_ShellExecuteEx W os sei w) as [[hp|e] w2]
    end; reflexivity.
Qed.

Lemma drain_outcome (n : nat) :
  forall s, fst (drain W os n s) = Return tt \/ fst (drain W os n s) = Pending.
Proof.
  induction n as [|n IH]; intros s; simpl; [right; reflexivity|].
  unfold_monad. simpl.
  destruct (os_PeekMessageW W os (world s)) as [got w1]; simpl.
  destruct (got =? 0); simpl; [left; reflexivity|].
  destruct (os_TranslateMessage W os w1) as [x w2]; simpl.
  destruct (os_DispatchMessageW W os w2) as [y w3]; simpl.
  apply IH.
Qed.

Lemma drain_trace (n : nat) :
  forall s, exists d,
    trace (snd (drain W os n s)) = trace s ++ d
    /\ forallb is_queue_event d = true.
Proof.
  induction n as [|n IH]; intros s; simpl.
  - exists []. split; [symmetry; apply app_nil_r|reflexivity].
  - unfold_monad. simpl.
    destruct (os_PeekMessageW W os (world s)) as [got w1]; simpl.
    destruct (got =? 0); simpl.
    + eexists. split; reflexivity.
    + destruct (os_TranslateMessage W os w1) as [x w2]; simpl.
      destruct (os_DispatchMessageW W os w2) as [y w3]; simpl.
      match goal with
      | |- context [drain W os n ?st] => destruct (IH st) as [d [Ed Qd]]
      end.
      rewrite Ed. simpl.
      exists ([Ev_PeekMessageW got; Ev_TranslateMessage; Ev_DispatchMessageW]
              ++ d).
      split; [trace_eq|]. simpl. exact Qd.
Qed.

Lemma pump_outcome (n : nat) (h : Z) :
  forall s, fst (pump W os n h s) = Return tt
            \/ fst (pump W os n h s) = Pending.
Proof.
  induction n as [|n IH]; intros s; simpl; [right; reflexivity|].
  unfold_monad. simpl.
  destruct (os_MsgWaitForMultipleObjects W os h (-1) 255 (world s))
    as [woke w1]; simpl.
  destruct (woke =? 1); simpl; [|left; reflexivity].
  match goal with
  | |- context [drain W os n ?st] =>
      destruct (drain_outcome n st) as [Hd|Hd];
      destruct (drain W os n st) as [r s2]; simpl in Hd; subst r
  end; [apply IH|right; reflexivity].
Qed.

(** The events of the pump open and close nothing. *)
Lemma pump_trace (n : nat) (h : Z) :
  forall s, exists d,
    trace (snd (pump W os n h s)) = trace s ++ d
    /\ forallb (is_neutral K) d = true.
Proof.
  induction n as [|n IH]; intros s; simpl.
  - exists []. split; [symmetry; apply app_nil_r|reflexivity].
  - unfold_monad. simpl.
    destruct (os_MsgWaitForMultipleObjects W os h (-1) 255 (world s))
      as [woke w1]; simpl.
    destruct (woke =? 1); simpl; [|eexists; split; reflexivity].
    match goal with
    | |- context [drain W os n ?st] =>
        destruct (drain_trace n st) as [d [Ed Qd]];
        destruct (drain W os n st) as [[[]|e|] s2]; simpl in *
    end.
    + destruct (IH s2) as [d' [Ed' Qd']]. rewrite Ed', Ed.
      exists ([Ev_MsgWaitForMultipleObjects h (-1) 255 woke] ++ d ++ d').
      split; [trace_eq|]. simpl. rewrite forallb_app, Qd'.
      rewrite (pump_event_neutral K h d (queue_event_pump h d Qd)).
      reflexivity.
    + rewrite Ed.
      exists ([Ev_MsgWaitForMultipleObjects h (-1) 255 woke] ++ d).
      split; [trace_eq|]. simpl.
      apply (pump_event_neutral K h d (queue_event_pump h d Qd)).
    + rewrite Ed.
      exists ([Ev_MsgWaitForMultipleObjects h (-1) 255 woke] ++ d).
      split; [trace_eq|]. simpl.
      apply (pump_event_neutral K h d (queue_event_pump h d Qd)).
Qed.

(** The launch: some calls that touch no handle, then [ShellExecuteEx],
    with the mask that keeps the child's handle when [wait] is set. *)
Lemma execElevated_launch_run (path : string)
    (params : option (list string)) (wait hae : bool) (s : State W) :
  exists pre sei a w,
    forallb (is_neutral K) pre = true
    /\ (wait = true -> fMask sei = SEE_MASK_NOCLOSEPROCESS K)
    /\ execElevated_launch W os K path params wait hae s =
         (outcome a,
          mkState w (trace s ++ pre ++ [Ev_ShellExecuteEx sei a])).
Proof.
  unfold execElevated_launch. unfold_monad. simpl.
  destruct hae; simpl.
  - destruct (os_IsUserAnAdmin W os (world s)) as [admin w1]; simpl.
    destruct (admin =? 0); simpl;
      match goal with
      | |- context [os_ShellExecuteEx W os ?sei ?w] =>
          destruct (os_ShellExecuteEx W os sei w) as [a w2];
          exists [Ev_abspath path; Ev_IsUserAnAdmin], sei, a, w2
      end;
      (split; [reflexivity|]);
      (split; [intros; subst wait; reflexivity|]);
      (f_equal; f_equal; trace_eq).
  - match goal with
    | |- context [os_ShellExecuteEx W os ?sei ?w] =>
        destruct (os_ShellExecuteEx W os sei w) as [a w2];
        exists [Ev_abspath path], sei, a, w2
    end.
    split; [reflexivity|].
    split; [intros; subst wait; reflexivity|].
    f_equal. f_equal. trace_eq.
Qed.

(** The events of a run of [execElevated] with [wait] that came to its
    end open the child's handle and close it once. *)
Lemma execElevated_balanced (n : nat) (path : string)
    (params : option (list string)) (hae : bool) (s : State W) :
  fst (execElevated W os K n path params true hae s) <> Pending ->
  exists d,
    trace (snd (execElevated W os K n path params true hae s)) = trace s ++ d
    /\ balanced K d.
Proof.
  rewrite execElevated_split.
  destruct (execElevated_launch_run path params true hae s)
    as (pre & sei & a & w & Hpre & Hmask & Hrun).
  specialize (Hmask eq_refl).
  destruct a as [hp|e]; simpl in Hrun.
  2:{ rewrite (bind_Raise _ _ _ _ _ Hrun). simpl.
      intros _. eexists. split; [reflexivity|].
      unfold balanced. rewrite replay_app, (replay_neutral K pre [] Hpre).
      reflexivity. }
  rewrite (bind_Return _ _ _ _ _ Hrun).
  unfold try_finally, bind, call, ret.
  match goal with
  | |- context [pump W os n hp ?st] =>
      destruct (pump_trace n hp st) as [d [Ed Qd]];
      destruct (pump_outcome n hp st) as [Hp|Hp];
      destruct (pump W os n hp st) as [r s2]; simpl in Hp, Ed; subst r;
      simpl
  end.
  2:{ intros H. exfalso. apply H. reflexivity. }
  intros _.
  assert (Hbal : balanced K
            ((pre ++ [Ev_ShellExecuteEx sei (Gives hp)]) ++ d ++
             [Ev_GetExitCodeProcess hp; Ev_closeHandle hp])).
  { unfold balanced.
    rewrite replay_app, replay_app, (replay_neutral K pre [] Hpre).
    simpl. rewrite Hmask, Z.eqb_refl. simpl.
    destruct (hp =? 0) eqn:Hnull; simpl.
    - rewrite replay_app, (replay_neutral K d [] Qd). simpl.
      rewrite Hnull. reflexivity.
    - rewrite replay_app, (replay_neutral K d [hp] Qd). simpl.
      rewrite Hnull, Z.eqb_refl. reflexivity. }
  destruct (os_GetExitCodeProcess W os hp (world s2)) as [[code|e] w3];
    simpl;
    destruct (os_closeHandle W os hp w3) as [[k|e'] w4]; simpl;
    (eexists; split; [|exact Hbal]);
    rewrite Ed; trace_eq.
Qed.

(** Where the queue answers as [queue_answers] says, the inner loop drains
    it with any budget larger than the number of messages. *)
Lemma drain_answers (answers : list Z) :
  forall (w' : W) (f : nat) (s : State W),
    queue_answers W os answers (world s) = Some w' ->
    (S (List.length answers) <= f)%nat ->
    drain W os f s =
      (Return tt,
       mkState w' (trace s ++ drained answers ++ [Ev_PeekMessageW 0])).
Proof.
  induction answers as [|a answers IH]; intros w' f s Hq Hf;
    (destruct f as [|f]; [simpl in Hf; lia|]);
    revert Hq; simpl; unfold_monad; simpl;
    destruct (os_PeekMessageW W os (world s)) as [got w1]; simpl.
  - destruct (got =? 0) eqn:Hg; [|discriminate].
    intros Hq. inversion Hq; subst w'.
    apply Z.eqb_eq in Hg. subst got. reflexivity.
  - destruct ((got =? a) && negb (a =? 0)) eqn:Hc; [|discriminate].
    apply andb_true_iff in Hc. destruct Hc as [Hga Ha].
    apply Z.eqb_eq in Hga. subst got.
    apply negb_true_iff in Ha. rewrite Ha. simpl.
    destruct (os_TranslateMessage W os w1) as [x w2]; simpl.
    destruct (os_DispatchMessageW W os w2) as [y w3]; simpl.
    intros Hq.
    match goal with
    | |- context [drain W os f ?st] =>
        rewrite (IH w' f st Hq) by (simpl in Hf; lia)
    end.
    simpl. f_equal. f_equal. repeat rewrite <- app_assoc. reflexivity.
Qed.

(** Where the system answers as [child_signals] says, the pump goes through
    the rounds and returns at the wait that reports the child's handle
    signalled, with any budget that covers the rounds and the longest
    queue. *)
Lemma pump_rounds (h : Z) (longest : nat) (rounds : list (list Z)) :
  forall (w' : W) (f : nat) (s : State W),
    child_signals W os h rounds (world s) = Some w' ->
    Forall (fun r => (List.length r <= longest)%nat) rounds ->
    (List.length rounds + S longest <= f)%nat ->
    pump W os f h s =
      (Return tt,
       mkState w'
         (trace s ++ pumped h rounds
            ++ [Ev_MsgWaitForMultipleObjects h (-1) 255 WAIT_OBJECT_0])).
Proof.
  induction rounds as [|answers rounds IH]; intros w' f s Hsig Hall Hf;
    (destruct f as [|f]; [simpl in Hf; lia|]);
    revert Hsig; simpl; unfold bind, ccall_logged, ret; simpl;
    destruct (os_MsgWaitForMultipleObjects W os h (-1) 255 (world s))
      as [woke w1]; simpl.
  - unfold WAIT_OBJECT_0. destruct (woke =? 0) eqn:Hw; [|discriminate].
    intros Hsig. inversion Hsig; subst w'.
    apply Z.eqb_eq in Hw. subst woke. reflexivity.
  - destruct (woke =? 1) eqn:Hw; [|discriminate].
    apply Z.eqb_eq in Hw. subst woke.
    destruct (queue_answers W os answers w1) as [w2|] eqn:Hq;
      [|discriminate].
    intros Hsig. inversion Hall as [|r rs Hr Hrs]; subst r rs.
    rewrite (drain_answers answers w2 f
               (mkState w1
                  (trace s ++ [Ev_MsgWaitForMultipleObjects h (-1) 255 1]))
               Hq) by (simpl in Hf; lia).
    match goal with
    | |- context [pump W os f h ?st] =>
        rewrite (IH w' f st Hsig Hrs) by (simpl in Hf; lia)
    end.
    simpl. f_equal. f_equal. repeat rewrite <- app_assoc. reflexivity.
Qed.

Lemma longest_round_bound (rounds : list (list Z)) :
  Forall (fun r => (List.length r <= longest_round rounds)%nat) rounds.
Proof.
  induction rounds as [|r rounds IH]; [constructor|].
  unfold longest_round in *. simpl. constructor; [lia|].
  eapply Forall_impl; [|exact IH]. simpl. intros x Hx. lia.
Qed.

Lemma neutral_released (d : list Event) :
  forallb (is_neutral K) d = true -> Forall (fun e => released e = None) d.
Proof.
  induction d as [|e d IH]; simpl; intros H; [constructor|].
  apply andb_true_iff in H. destruct H as [He Hd].
  constructor; [|exact (IH Hd)].
  unfold is_neutral in He.
  destruct (acquired K e); [discriminate|].
  destruct (released e); [discriminate|reflexivity].
Qed.

(** The launch, with the structure handed to [ShellExecuteEx] and the
    world it is called in written out. *)
Lemma execElevated_launch_exact (path : string)
    (params : option (list string)) (wait hae : bool) (s : State W) :
  let file := os_abspath W os path (world s) in
  let admin := fst (os_IsUserAnAdmin W os (world s)) in
  let w0 := if hae then snd (os_IsUserAnAdmin W os (world s))
            else world s in
  let asked := if hae then [Ev_IsUserAnAdmin] else [] in
  let verb := if negb hae || (admin =? 0) then Some "runas" else None in
  let sei :=
    mkSEI file (option_map (os_list2cmdline W os) params) (SW_HIDE K) verb
      (if wait then SEE_MASK_NOCLOSEPROCESS K else 0) 0 in
  let a := fst (os_ShellExecuteEx W os sei w0) in
  execElevated_launch W os K path params wait hae s =
    (outcome a,
     mkState (snd (os_ShellExecuteEx W os sei w0))
       (trace s ++ ([Ev_abspath path] ++ asked ++ [Ev_ShellExecuteEx sei a]))).
Proof.
  intros file admin w0 asked verb sei a.
  subst file admin w0 asked verb sei a.
  unfold execElevated_launch. unfold_monad. simpl.
  destruct hae; simpl.
  - destruct (os_IsUserAnAdmin W os (world s)) as [admin w1]; simpl.
    destruct (admin =? 0); destruct wait; simpl;
      match goal with
      | |- context [os_ShellExecuteEx W os ?sei ?w] =>
          destruct (os_ShellExecuteEx W os sei w) as [a w2]
      end; simpl; f_equal; f_equal; trace_eq.
  - destruct wait; simpl;
      match goal with
      | |- context [os_ShellExecuteEx W os ?sei ?w] =>
          destruct (os_ShellExecuteEx W os sei w) as [a w2]
      end; simpl; f_equal; f_equal; trace_eq.
Qed.

(** C5: let [ShellExecuteEx] launch the child and leave its handle.
    Without [wait], [execElevated] returns [None] at once.  With [wait],
    where the wait on the child's handle wakes for messages some rounds and
    then reports the handle signalled, [execElevated] goes through these
    rounds, asks for the child's exit code when the child has signalled,
    and returns it, with every budget of loop rounds that covers the
    rounds; it closes the child's handle as its last call, also when the
    exit code or the close raises, and on every run that comes to an
    end. *)
Theorem execElevated_wait_returns_exit_code :
  forall (path : string) (params : option (list string))
         (wait hae : bool) (s : State W) (hp : Z) (w1 : W),
    let file := os_abspath W os path (world s) in
    let admin := fst (os_IsUserAnAdmin W os (world s)) in
    let w0 := if hae then snd (os_IsUserAnAdmin W os (world s))
              else world s in
    let asked := if hae then [Ev_IsUserAnAdmin] else [] in
    let verb := if negb hae || (admin =? 0) then Some "runas" else None in
    let sei :=
      mkSEI file (option_map (os_list2cmdline W os) params) (SW_HIDE K) verb
        (if wait then SEE_MASK_NOCLOSEPROCESS K else 0) 0 in
    let launch :=
      [Ev_abspath path] ++ asked ++ [Ev_ShellExecuteEx sei (Gives hp)] in
    os_ShellExecuteEx W os sei w0 = (Gives hp, w1) ->
    (wait = false ->
     forall n,
       execElevated W os K n path params wait hae s =
         (Return None, mkState w1 (trace s ++ launch)))
    /\ (wait = true ->
        (forall (rounds : list (list Z)) (w2 w3 w4 : W) (g c : Answer Z),
            child_signals W os hp rounds w1 = Some w2 ->
            os_GetExitCodeProcess W os hp w2 = (g, w3) ->
            os_closeHandle W os hp w3 = (c, w4) ->
            forall m, (rounds_budget rounds <= m)%nat ->
              execElevated W os K m path params wait hae s =
                (match c, g with
                 | Throws e, _ => Raise e
                 | Gives _, Gives code => Return (Some code)
                 | Gives _, Throws e => Raise e
                 end,
                 mkState w4
                   (trace s ++ launch ++ pumped hp rounds ++
                    [Ev_MsgWaitForMultipleObjects hp (-1) 255 WAIT_OBJECT_0;
                     Ev_GetExitCodeProcess hp;
                     Ev_closeHandle hp])))
        /\ (forall n,
              fst (execElevated W os K n path params wait hae s)
                <> Pending ->
              exists t,
                since s (snd (execElevated W os K n path params wait hae s))
                  = launch ++ t ++ [Ev_closeHandle hp]
                /\ Forall (fun e => released e = None) t)).
Proof.
  intros path params wait hae s hp w1 file admin w0 asked verb sei launch E.
  pose proof (execElevated_launch_exact path params wait hae s) as Hlaunch.
  cbv zeta in Hlaunch.
  fold file admin in Hlaunch. fold w0 asked verb in Hlaunch.
  fold sei in Hlaunch. rewrite E in Hlaunch. cbn [fst snd outcome] in Hlaunch.
  fold launch in Hlaunch. clearbody launch. clear E.
  split; intros Hw; subst wait.
  - intros n. rewrite execElevated_split.
    rewrite (bind_Return _ _ _ _ _ Hlaunch). reflexivity.
  - split.
    + intros rounds w2 w3 w4 g c Hsig Eg Ec m Hm.
      rewrite execElevated_split.
      rewrite (bind_Return _ _ _ _ _ Hlaunch).
      unfold try_finally, bind, call, ret.
      rewrite (pump_rounds hp (longest_round rounds) rounds w2 m
                 (mkState w1 (trace s ++ launch)) Hsig
                 (longest_round_bound rounds) Hm).
      simpl. rewrite Eg. simpl.
      destruct g as [code|e]; simpl; rewrite Ec; simpl;
        destruct c as [k|e']; simpl; f_equal; f_equal;
        repeat rewrite <- app_assoc; reflexivity.
    + intros n. rewrite execElevated_split.
      rewrite (bind_Return _ _ _ _ _ Hlaunch).
      unfold try_finally, bind, call, ret.
      match goal with
      | |- context [pump W os n hp ?st] =>
          destruct (pump_trace n hp st) as [d [Ed Qd]];
          destruct (pump_outcome n hp st) as [Hp|Hp];
          destruct (pump W os n hp st) as [r s2]; simpl in Hp, Ed; subst r;
          simpl
      end.
      2:{ intros H. exfalso. apply H. reflexivity. }
      intros _.
      exists (d ++ [Ev_GetExitCodeProcess hp]).
      split.
      * destruct (os_GetExitCodeProcess W os hp (world s2))
          as [[code|e] w3]; simpl;
          destruct (os_closeHandle W os hp w3) as [[k|e'] w4]; simpl;
          apply since_app; simpl; rewrite Ed;
          repeat rewrite <- app_assoc; reflexivity.
      * apply Forall_app. split; [exact (neutral_released d Qd)|].
        constructor; [reflexivity|constructor].
Qed.

(** ** Handles *)

(** C7: in every run that comes to an end, by a return or by an exception,
    each of [hasUiAccess], [execElevated] (with [wait]),
    [terminateRunningNVDA] and [forceTerminateProcess] closes every handle
    it opened exactly once, and closes no other handle than the null
    one. *)
Theorem every_opened_handle_closed_exactly_once :
  (forall s : State W,
      balanced K (since s (snd (hasUiAccess W os K s))))
  /\ (forall (n : nat) (path : string) (params : option (list string))
             (hae : bool) (s : State W),
         fst (execElevated W os K n path params true hae s) <> Pending ->
         balanced K
           (since s (snd (execElevated W os K n path params true hae s))))
  /\ (forall (window : Z) (s : State W),
         balanced K (since s (snd (terminateRunningNVDA W os K window s))))
  /\ (forall (processID : Z) (s : State W),
         balanced K
           (since s (snd (forceTerminateProcess W os K processID s)))).
Proof.
  repeat split.
  - intros s.
    destruct (hasUiAccess_run s)
      as (process & w1 & oret & otoken & w2 & qret & qval & w3 & cret & w4
          & _ & _ & _ & _ & E).
    rewrite E. erewrite since_app by (simpl; reflexivity).
    unfold balanced. simpl.
    destruct otoken as [h|]; simpl; [|reflexivity].
    destruct (h =? 0) eqn:Hnull; simpl;
      rewrite ?Hnull, ?Z.eqb_refl; reflexivity.
  - intros n path params hae s Hfin.
    destruct (execElevated_balanced n path params hae s Hfin) as [d [E B]].
    rewrite (since_app _ _ _ E). exact B.
  - intros window s.
    destruct (terminateRunningNVDA_balanced window s) as [d [E B]].
    rewrite (since_app _ _ _ E). exact B.
  - intros processID s.
    destruct (forceTerminateProcess_balanced processID s) as [d [E B]].
    rewrite (since_app _ _ _ E). exact B.
Qed.

End Properties.

(** ** The query text *)

Lemma string_app_assoc (a b c : string) :
  ((a ++ b) ++ c = a ++ (b ++ c))%string.
Proof. induction a as [|x a IH]; simpl; [reflexivity|]. now rewrite IH. Qed.

(** On the backslash, [str.replace] is the doubling of the claim. *)
Lemma escapedName_doubles (name : string) :
  escapedName name = double_backslashes name.
Proof.
  unfold escapedName, str_replace, backslash. simpl append.
  induction name as [|c name IH]; simpl; [reflexivity|].
  rewrite andb_true_r, Ascii.eqb_sym.
  destruct (Ascii.eqb c "092"); simpl; now rewrite IH.
Qed.

Lemma double_backslashes_app (a b : string) :
  double_backslashes (a ++ b) =
  (double_backslashes a ++ double_backslashes b)%string.
Proof.
  induction a as [|c a IH]; simpl; [reflexivity|].
  destruct (Ascii.eqb c "092"); simpl; now rewrite IH.
Qed.

(** C9: the query is the fixed text around the name with every backslash
    doubled and every other character kept; a single quote of the name
    stands in the query as it is, so the quoted literal of the query ends
    at it. *)
Theorem query_text_doubles_backslashes_only :
  forall name : string,
    query_text name =
      ("SELECT ProcessId FROM Win32_Process WHERE ExecutablePath = '"
         ++ double_backslashes name ++ "'")%string
    /\ (forall c s,
          double_backslashes (String c s) =
            if Ascii.eqb c "092"
            then (backslash ++ backslash ++ double_backslashes s)%string
            else String c (double_backslashes s))
    /\ (forall a b : string,
          query_text (a ++ quote ++ b) =
            ("SELECT ProcessId FROM Win32_Process WHERE ExecutablePath = '"
               ++ double_backslashes a ++ "'" ++ double_backslashes b
               ++ "'")%string).
Proof.
  intros name. split; [|split].
  - unfold query_text. now rewrite escapedName_doubles.
  - intros c s. reflexivity.
  - intros a b. unfold query_text.
    rewrite escapedName_doubles, !double_backslashes_app.
    rewrite !string_app_assoc. reflexivity.
Qed.

(** ** getRunningProcessInstances *)

Section Queries.

Variable W : Type.
Variable os : OS W.

Lemma collect_length {A B} (f : A -> M W B) (l : list A) :
  forall s vs s',
    collect W f l s = (Return vs, s') -> List.length vs = List.length l.
Proof.
  induction l as [|x l IH]; intros s vs s' H; simpl in H.
  - inversion H. reflexivity.
  - unfold bind, ret in H.
    destruct (f x s) as [[v|e|] s1]; try discriminate.
    destruct (collect W f l s1) as [[vs'|e|] s2] eqn:E; try discriminate.
    inversion H; subst. simpl. f_equal. eapply IH. exact E.
Qed.

(** Where the rows of the list can be read, in the worlds the reads go
    through (an invariant [Inv] that the reads keep), the collection is
    the [row] of each index, in the order of the indices. *)
Lemma collect_rows (processes : Z) (row : Z -> Z) (Inv : W -> Prop)
    (l : list Z) :
  (forall i w, In i l -> Inv w ->
               exists w',
                 os_ItemIndex_ProcessId W os processes i w
                   = (Gives (row i), w')
                 /\ Inv w') ->
  forall s, Inv (world s) ->
            fst (collect W (item W os processes) l s) = Return (map row l).
Proof.
  induction l as [|x l IH]; intros Hrow s Hs; simpl; [reflexivity|].
  unfold bind, ret, item at 1, call.
  destruct (Hrow x (world s) (or_introl eq_refl) Hs) as (w' & Ex & Hw').
  rewrite Ex. simpl.
  match goal with
  | |- context [collect W (item W os processes) l ?st] =>
      pose proof (IH (fun i w Hi => Hrow i w (or_intror Hi)) st Hw') as Hl;
      destruct (collect W (item W os processes) l st) as [r s2]
  end.
  simpl in Hl. subst r. reflexivity.
Qed.

(** The first row that cannot be read ends the collection with its
    exception. *)
Lemma collect_throws (processes : Z) (row : Z -> Z) (Inv : W -> Prop)
    (e : PyExc) (l1 l2 : list Z) (k : Z) :
  (forall i w, In i l1 -> Inv w ->
               exists w',
                 os_ItemIndex_ProcessId W os processes i w
                   = (Gives (row i), w')
                 /\ Inv w') ->
  (forall w, Inv w ->
             fst (os_ItemIndex_ProcessId W os processes k w) = Throws e) ->
  forall s, Inv (world s) ->
            fst (collect W (item W os processes) (l1 ++ k :: l2) s) = Raise e.
Proof.
  induction l1 as [|x l1 IH]; intros Hrow Hk s Hs; simpl.
  - unfold bind, item at 1, call.
    pose proof (Hk (world s) Hs) as Hx.
    destruct (os_ItemIndex_ProcessId W os processes k (world s)) as [a w1].
    simpl in Hx. subst a. reflexivity.
  - unfold bind, ret, item at 1, call.
    destruct (Hrow x (world s) (or_introl eq_refl) Hs) as (w' & Ex & Hw').
    rewrite Ex. simpl.
    match goal with
    | |- context [collect W (item W os processes) (l1 ++ k :: l2) ?st] =>
        pose proof (IH (fun i w Hi => Hrow i w (or_intror Hi)) Hk st Hw')
          as Hl;
        destruct (collect W (item W os processes) (l1 ++ k :: l2) st)
          as [r s2]
    end.
    simpl in Hl. subst r. reflexivity.
Qed.

Lemma range_bounds (count i : Z) : In i (range count) -> 0 <= i < count.
Proof.
  unfold range. intros Hi. apply in_map_iff in Hi.
  destruct Hi as [j [Ej Hj]]. subst i. apply in_seq in Hj. lia.
Qed.

Lemma range_length (count : Z) : List.length (range count) = Z.to_nat count.
Proof. unfold range. now rewrite length_map, length_seq. Qed.

Lemma range_split (count : Z) (k : nat) :
  (k < Z.to_nat count)%nat ->
  range count =
    map Z.of_nat (seq 0 k) ++
    Z.of_nat k :: map Z.of_nat (seq (S k) (Z.to_nat count - S k)).
Proof.
  intros Hk. unfold range.
  replace (Z.to_nat count) with (k + S (Z.to_nat count - S k))%nat at 1
    by lia.
  rewrite seq_app, map_app. simpl. reflexivity.
Qed.

(** C6: the query handed to [ExecQuery] holds the name with every
    backslash doubled; an exception of [CoGetObject], of [ExecQuery], of the
    count or of a row goes to the caller; otherwise the result has as many
    elements as the count says, none for a count of zero, and holds the
    [ProcessId] of the rows 0 to count - 1 in the order of their indices.
    What the rows answer is asked only for the indices read and in the
    worlds the reads go through. *)
Theorem getRunningProcessInstances_rows_or_error :
  forall (name : string) (s : State W),
    let run := getRunningProcessInstances W os name s in
    let q :=
      ("SELECT ProcessId FROM Win32_Process WHERE ExecutablePath = '"
         ++ double_backslashes name ++ "'")%string in
    (forall e w1,
        os_CoGetObject W os "winmgmts:" (world s) = (Throws e, w1) ->
        fst run = Raise e)
    /\ (forall wmi w1,
          os_CoGetObject W os "winmgmts:" (world s) = (Gives wmi, w1) ->
          (forall e w2,
              os_ExecQuery W os wmi q w1 = (Throws e, w2) ->
              fst run = Raise e)
          /\ (forall processes w2,
                os_ExecQuery W os wmi q w1 = (Gives processes, w2) ->
                (forall e w3,
                    os_Count W os processes w2 = (Throws e, w3) ->
                    fst run = Raise e)
                /\ (forall count w3,
                      os_Count W os processes w2 = (Gives count, w3) ->
                      (forall l, fst run = Return l ->
                                 List.length l = Z.to_nat count)
                      /\ (count <= 0 ->
                          run =
                            (Return [],
                             mkState w3
                               (trace s ++
                                [Ev_CoGetObject "winmgmts:";
                                 Ev_ExecQuery wmi q;
                                 Ev_Count processes])))
                      /\ (forall (row : Z -> Z) (Inv : W -> Prop),
                            Inv w3 ->
                            (forall i w,
                                0 <= i < count -> Inv w ->
                                exists w',
                                  os_ItemIndex_ProcessId W os processes i w
                                    = (Gives (row i), w')
                                  /\ Inv w') ->
                            fst run = Return (map row (range count)))
                      /\ (forall (row : Z -> Z) (Inv : W -> Prop)
                                 (e : PyExc) (k : Z),
                            0 <= k < count ->
                            Inv w3 ->
                            (forall i w,
                                0 <= i < k -> Inv w ->
                                exists w',
                                  os_ItemIndex_ProcessId W os processes i w
                                    = (Gives (row i), w')
                                  /\ Inv w') ->
                            (forall w,
                                Inv w ->
                                fst (os_ItemIndex_ProcessId W os processes
                                       k w) = Throws e) ->
                            fst run = Raise e)))).
Proof.
  intros name s run q.
  assert (Hq : query_text name = q)
    by (unfold query_text; now rewrite escapedName_doubles).
  assert (Hrun : run =
      (wmi <- call (Ev_CoGetObject "winmgmts:")
                (os_CoGetObject W os "winmgmts:") ;;
       processes <- call (Ev_ExecQuery wmi q) (os_ExecQuery W os wmi q) ;;
       count <- call (Ev_Count processes) (os_Count W os processes) ;;
       collect W (item W os processes) (range count)) s).
  { subst run. unfold getRunningProcessInstances. rewrite Hq. reflexivity. }
  clearbody run. subst run.
  split.
  { intros e w1 E1.
    erewrite bind_Raise by (apply call_Throws; exact E1). reflexivity. }
  intros wmi w1 E1.
  erewrite bind_Return by (apply call_Gives; exact E1).
  split.
  { intros e w2 E2.
    erewrite bind_Raise by (apply call_Throws; exact E2). reflexivity. }
  intros processes w2 E2.
  erewrite bind_Return by (apply call_Gives; exact E2).
  split.
  { intros e w3 E3.
    erewrite bind_Raise by (apply call_Throws; exact E3). reflexivity. }
  intros count w3 E3.
  erewrite bind_Return by (apply call_Gives; exact E3).
  simpl.
  match goal with
  | |- context [collect W _ (range count) ?st] => set (s3 := st)
  end.
  split; [|split; [|split]].
  - intros l Hl.
    destruct (collect W (item W os processes) (range count) s3)
      as [r s4] eqn:E.
    simpl in Hl. subst r.
    rewrite (collect_length _ _ _ _ _ E). apply range_length.
  - intros Hz. unfold range.
    replace (Z.to_nat count) with 0%nat by lia. simpl.
    unfold ret. subst s3. f_equal. f_equal. trace_eq.
  - intros row Inv Hinv Hrow.
    apply (collect_rows processes row Inv); [|exact Hinv].
    intros i w Hi Hw. apply Hrow; [exact (range_bounds count i Hi)|exact Hw].
  - intros row Inv e k Hk Hinv Hrow Hthrow.
    assert (Hk' : (Z.to_nat k < Z.to_nat count)%nat) by lia.
    rewrite (range_split count (Z.to_nat k) Hk').
    replace (Z.of_nat (Z.to_nat k)) with k by lia.
    apply (collect_throws processes row Inv e);
      [|exact Hthrow|exact Hinv].
    intros i w Hi Hw. apply Hrow; [|exact Hw].
    apply in_map_iff in Hi. destruct Hi as [j [Ej Hj]]. subst i.
    apply in_seq in Hj. lia.
Qed.

End Queries.

(** * The functions at work on the scripted machines *)

Module Runs.

Import Fixture.

(** ** openUserConfigurationDirectory *)

Lemma openUserConfigurationDirectory_no_default_path_witness :
  raises_class
    (fst (openUserConfigurationDirectory Machine os Win32 (start bare)))
    "ValueError" "no user default config path".
Proof.
  exact (proj2 (openUserConfigurationDirectory_no_default_path
                  Machine os Win32 (start bare) PyNone bare
                  eq_refl eq_refl eq_refl)).
Defined.

(** C2, as stated, fails: without [configPath] and without a default path
    the exception raised is not of a class [ConfigurationError]. *)
Lemma openUserConfigurationDirectory_not_ConfigurationError :
  os_configPath Machine os (world (start bare)) = None
  /\ fst (os_getUserDefaultConfigPath Machine os bare) = Gives PyNone
  /\ ~ raises_class
         (fst (openUserConfigurationDirectory Machine os Win32 (start bare)))
         "ConfigurationError" "no user default config path".
Proof.
  split; [reflexivity|]. split; [reflexivity|].
  intros [e [He [Hclass _]]].
  simpl in He. inversion He; subst e. discriminate Hclass.
Qed.

(** With a default path the slave initialises the configuration and opens
    the directory. *)
Example openUserConfigurationDirectory_slave :
  let r := openUserConfigurationDirectory Machine os Win32 (start healthy) in
  fst r = Return tt
  /\ trace (snd r) =
       [Ev_configPath None; Ev_getUserDefaultConfigPath;
        Ev_initConfigPath (PyS "C:/Users/u/AppData/Roaming/nvda");
        Ev_ShellExecute 0 None (PyS "C:/Users/u/AppData/Roaming/nvda")
          None None 1].
Proof. split; reflexivity. Qed.

(** An empty [configPath] goes to the shell as it is. *)
Example openUserConfigurationDirectory_blank :
  let r := openUserConfigurationDirectory Machine os Win32 (start blank) in
  fst r = Return tt
  /\ trace (snd r) =
       [Ev_configPath (Some (PyS ""));
        Ev_ShellExecute 0 None (PyS "") None None 1].
Proof. split; reflexivity. Qed.

(** ** hasUiAccess *)

(** C3, as stated, fails: the token cannot be opened, and [hasUiAccess]
    returns [False] instead of raising. *)
Lemma hasUiAccess_open_failure_returns_False :
  os_OpenProcessToken Machine os (-1) (MAXIMUM_ALLOWED Win32) bare
    = ((0, None), bare)
  /\ fst (hasUiAccess Machine os Win32 (start bare)) = Return false
  /\ ~ (exists e, fst (hasUiAccess Machine os Win32 (start bare)) = Raise e).
Proof.
  split; [reflexivity|]. split; [reflexivity|].
  intros [e He]. discriminate He.
Qed.

Lemma hasUiAccess_open_failure_not_propagated_witness :
  fst (hasUiAccess Machine os Win32 (start bare)) = Return false
  /\ since (start bare) (snd (hasUiAccess Machine os Win32 (start bare))) =
       [Ev_GetCurrentProcess;
        Ev_OpenProcessToken (-1) (MAXIMUM_ALLOWED Win32) 0 None;
        Ev_GetTokenInformation 0 TokenUIAccess sizeof_DWORD 0 None;
        Ev_CloseHandle 0].
Proof.
  exact (hasUiAccess_open_failure_not_propagated Machine os Win32
           (start bare) (-1) bare bare bare 0 None
           eq_refl eq_refl eq_refl).
Defined.

Example hasUiAccess_granted :
  let r := hasUiAccess Machine os Win32 (start healthy) in
  fst r = Return true
  /\ trace (snd r) =
       [Ev_GetCurrentProcess;
        Ev_OpenProcessToken (-1) 33554432 1 (Some 500);
        Ev_GetTokenInformation 500 26 4 1 (Some 1);
        Ev_CloseHandle 500].
Proof. split; reflexivity. Qed.

(** The token opens and the query fails: [False], and the token is
    closed. *)
Example hasUiAccess_query_fails :
  let r := hasUiAccess Machine os Win32 (start blank) in
  fst r = Return false
  /\ trace (snd r) =
       [Ev_GetCurrentProcess;
        Ev_OpenProcessToken (-1) 33554432 1 (Some 500);
        Ev_GetTokenInformation 500 26 4 0 None;
        Ev_CloseHandle 500].
Proof. split; reflexivity. Qed.

Lemma hasUiAccess_failed_query_returns_False_witness :
  fst (hasUiAccess Machine os Win32 (start blank)) = Return false
  /\ since (start blank) (snd (hasUiAccess Machine os Win32 (start blank))) =
       [Ev_GetCurrentProcess;
        Ev_OpenProcessToken (-1) (MAXIMUM_ALLOWED Win32) 1 (Some 500);
        Ev_GetTokenInformation 500 TokenUIAccess sizeof_DWORD 0 None;
        Ev_CloseHandle 500].
Proof.
  exact (hasUiAccess_failed_query_returns_False Machine os Win32
           (start blank) (-1) 1 0 (Some 500) blank blank blank
           eq_refl eq_refl eq_refl).
Defined.

(** ** forceTerminateProcess *)

(** Process 4242 cannot be opened, and the call returns as if it had
    terminated it. *)
Lemma forceTerminateProcess_open_failure_not_raised_witness :
  forceTerminateProcess Machine os Win32 4242 (start lenient) =
    (Return tt,
     mkState lenient
       [Ev_openProcess 1048577 false 4242 (Gives 0);
        Ev_WinError 87;
        Ev_TerminateProcess 0 1;
        Ev_waitForSingleObject 0 2000 (Gives (-1));
        Ev_closeHandle 0]).
Proof.
  exact (forceTerminateProcess_open_failure_not_raised Machine os Win32
           (start lenient) 4242 lenient lenient lenient lenient 0 (-1) 0
           eq_refl eq_refl eq_refl eq_refl).
Defined.

(** Where the wait on the null handle raises, that exception is the one
    the caller sees, after [TerminateProcess] was called on the null
    handle: error 6 of the wait, not error 87 of the open. *)
Example forceTerminateProcess_null_handle_wait_raises :
  let r := forceTerminateProcess Machine os Win32 4242 (start healthy) in
  fst r = Raise (OSError 6)
  /\ trace (snd r) =
       [Ev_openProcess 1048577 false 4242 (Gives 0);
        Ev_WinError 87;
        Ev_TerminateProcess 0 1;
        Ev_waitForSingleObject 0 2000 (Throws (OSError 6));
        Ev_closeHandle 0].
Proof. split; reflexivity. Qed.

(** ** terminateRunningNVDA *)

(** The process of window 7 ignores the quit message: after the wait of
    4000 ms has timed out and the handle is closed, the rest of the run is
    the forced termination of process 70. *)
Lemma terminateRunningNVDA_escalates_only_after_the_wait_witness :
  terminateRunningNVDA Machine os Win32 7 (start stubborn) =
    forceTerminateProcess Machine os Win32 70
      (mkState stubborn
         [Ev_getWindowThreadProcessID 7;
          Ev_PostMessage 7 18 0 0;
          Ev_openProcess 1048576 false 70 (Gives 700);
          Ev_waitForSingleObject 700 4000 (Gives WAIT_TIMEOUT);
          Ev_closeHandle 700]).
Proof.
  pose proof (terminateRunningNVDA_escalates_only_after_the_wait
                Machine os Win32 (start stubborn) 7 (70, 1)
                stubborn stubborn stubborn 1 700
                eq_refl eq_refl eq_refl) as [_ H].
  assert (Hopen : 700 <> 0) by discriminate.
  exact (H Hopen (Gives WAIT_TIMEOUT) stubborn stubborn 1 eq_refl eq_refl).
Defined.

Example terminateRunningNVDA_graceful :
  terminateRunningNVDA Machine os Win32 7 (start healthy) =
    (Return tt,
     mkState healthy
       [Ev_getWindowThreadProcessID 7;
        Ev_PostMessage 7 18 0 0;
        Ev_openProcess 1048576 false 70 (Gives 700);
        Ev_waitForSingleObject 700 4000 (Gives 0);
        Ev_closeHandle 700]).
Proof. reflexivity. Qed.

Example terminateRunningNVDA_already_dead :
  terminateRunningNVDA Machine os Win32 8 (start healthy) =
    (Return tt,
     mkState healthy
       [Ev_getWindowThreadProcessID 8;
        Ev_PostMessage 8 18 0 0;
        Ev_openProcess 1048576 false 80 (Gives 0)]).
Proof. reflexivity. Qed.

Example terminateRunningNVDA_forced :
  let r := terminateRunningNVDA Machine os Win32 7 (start stubborn) in
  fst r = Return tt
  /\ trace (snd r) =
       [Ev_getWindowThreadProcessID 7;
        Ev_PostMessage 7 18 0 0;
        Ev_openProcess 1048576 false 70 (Gives 700);
        Ev_waitForSingleObject 700 4000 (Gives 258);
        Ev_closeHandle 700;
        Ev_openProcess 1048577 false 70 (Gives 700);
        Ev_TerminateProcess 700 1;
        Ev_waitForSingleObject 700 2000 (Gives 258);
        Ev_closeHandle 700]
  /\ balanced Win32 (trace (snd r)).
Proof. repeat split; reflexivity. Qed.

(** ** execElevated *)

(** A child that exits with code 7 after two rounds of messages: the call
    returns 7 and has closed the child's handle. *)
Lemma execElevated_wait_returns_exit_code_witness :
  execElevated Machine os Win32 10 "nvda_slave.exe"
    (Some ["--install"; "--silent"]) true false (start healthy)
  = (Return (Some 7),
     mkState (world signalled)
       (trace signalled ++ [Ev_GetExitCodeProcess 900; Ev_closeHandle 900])).
Proof.
  pose proof (execElevated_wait_returns_exit_code Machine os Win32
                "nvda_slave.exe" (Some ["--install"; "--silent"])
                true false (start healthy) 900 healthy eq_refl) as [_ H].
  destruct (H eq_refl) as [Hcode _].
  assert (Hle : (rounds_budget [[1%Z; 1%Z]; [1%Z]] <= 10)%nat)
    by (cbv; repeat constructor).
  exact (Hcode [[1; 1]; [1]] (world signalled) (world signalled)
           (world signalled) (Gives 7) (Gives 1)
           eq_refl eq_refl eq_refl 10%nat Hle).
Defined.

Example execElevated_wait_trace :
  trace signalled ++ [Ev_GetExitCodeProcess 900; Ev_closeHandle 900] =
    [Ev_abspath "nvda_slave.exe";
     Ev_ShellExecuteEx
       (mkSEI "nvda_slave.exe" (Some "--install --silent") 0
          (Some "runas") 64 0)
       (Gives 900);
     Ev_MsgWaitForMultipleObjects 900 (-1) 255 1;
     Ev_PeekMessageW 1; Ev_TranslateMessage; Ev_DispatchMessageW;
     Ev_PeekMessageW 1; Ev_TranslateMessage; Ev_DispatchMessageW;
     Ev_PeekMessageW 0;
     Ev_MsgWaitForMultipleObjects 900 (-1) 255 1;
     Ev_PeekMessageW 1; Ev_TranslateMessage; Ev_DispatchMessageW;
     Ev_PeekMessageW 0;
     Ev_MsgWaitForMultipleObjects 900 (-1) 255 0;
     Ev_GetExitCodeProcess 900; Ev_closeHandle 900].
Proof. reflexivity. Qed.

(** With too small a budget the call is still in the pump. *)
Example execElevated_still_waiting :
  fst (execElevated Machine os Win32 3 "nvda_slave.exe" None true false
         (start healthy)) = Pending.
Proof. reflexivity. Qed.

(** Without [wait] there is no result, and no mask to keep a handle; the
    caller is an administrator's process that asked for
    [handleAlreadyElevated], and [IsUserAnAdmin] answers 0 here. *)
Example execElevated_no_wait :
  execElevated Machine os Win32 0 "nvda_slave.exe" None false true
    (start healthy)
  = (Return None,
     mkState healthy
       [Ev_abspath "nvda_slave.exe"; Ev_IsUserAnAdmin;
        Ev_ShellExecuteEx
          (mkSEI "nvda_slave.exe" None 0 (Some "runas") 0 0) (Gives 0)]).
Proof. reflexivity. Qed.

(** ** getRunningProcessInstances *)

Example getRunningProcessInstances_foo :
  let r := getRunningProcessInstances Machine os foo_exe (start healthy) in
  fst r = Return [812; 4020]
  /\ trace (snd r) =
       [Ev_CoGetObject "winmgmts:";
        Ev_ExecQuery 1
          ("SELECT ProcessId FROM Win32_Process WHERE ExecutablePath = 'C:"
             ++ backslash ++ backslash ++ "app" ++ backslash ++ backslash
             ++ "foo.exe'");
        Ev_Count 2;
        Ev_ItemIndex_ProcessId 2 0;
        Ev_ItemIndex_ProcessId 2 1].
Proof. split; reflexivity. Qed.

(** The two rows found for the path are returned in the order of their
    indices. *)
Lemma getRunningProcessInstances_rows_or_error_witness :
  fst (getRunningProcessInstances Machine os foo_exe (start healthy))
  = Return [812; 4020].
Proof.
  pose proof (getRunningProcessInstances_rows_or_error Machine os foo_exe
                (start healthy)) as H.
  cbv zeta in H. destruct H as [_ H].
  destruct (H 1 healthy eq_refl) as [_ H2].
  destruct (H2 2 healthy eq_refl) as [_ H3].
  destruct (H3 2 healthy eq_refl) as (_ & _ & Hrows & _).
  refine (Hrows (fun i => nth (Z.to_nat i) [812; 4020] 0)
            (fun w => m_rows w = Some [812; 4020]) eq_refl _).
  intros i w _ Hw. exists w. simpl. rewrite Hw. split; reflexivity.
Defined.

(** A broken query shows when the count is fetched, and goes to the
    caller. *)
Example getRunningProcessInstances_broken_query :
  fst (getRunningProcessInstances Machine os "O'Brien" (start blank))
  = Raise (External "COMError" "invalid query").
Proof. reflexivity. Qed.

Example query_text_quote :
  query_text "O'Brien" =
    "SELECT ProcessId FROM Win32_Process WHERE ExecutablePath = 'O'Brien'".
Proof. reflexivity. Qed.

(** ** Handles *)

(** The replay tells a handle left open and a handle closed twice from a
    balanced trace. *)
Example replay_leak :
  replay Win32 [] [Ev_openProcess 1048576 false 70 (Gives 700)] = Some [700].
Proof. reflexivity. Qed.

Example replay_double_close :
  replay Win32 []
    [Ev_openProcess 1048576 false 70 (Gives 700);
     Ev_closeHandle 700; Ev_closeHandle 700] = None.
Proof. reflexivity. Qed.

Example execElevated_handle_opened_and_closed :
  let t := trace signalled ++
           [Ev_GetExitCodeProcess 900; Ev_closeHandle 900] in
  replay Win32 [] (firstn 2 t) = Some [900]
  /\ balanced Win32 t.
Proof. split; reflexivity. Qed.

End Runs.

(** * Further properties of the module *)

Section Extras.

Variable W : Type.
Variable os : OS W.
Variable K : WinConstants.

(** ** openUserConfigurationDirectory *)

(** X1: in the fallback with a usable default path, the configuration
    subsystem is initialised with that path before the shell is asked to
    open the same path; what the shell call returns is not looked at, and
    what it raises goes to the caller. *)
Theorem openUserConfigurationDirectory_initialises_then_opens :
  forall (s : State W) (p : PyStr) (w1 w2 w3 : W) (a : Answer Z),
    os_configPath W os (world s) = None ->
    os_getUserDefaultConfigPath W os (world s) = (Gives p, w1) ->
    truthy p = true ->
    os_initConfigPath W os p w1 = (Gives tt, w2) ->
    os_ShellExecute W os 0 None p None None (SW_SHOWNORMAL K) w2 = (a, w3) ->
    openUserConfigurationDirectory W os K s =
      (match a with
       | Gives _ => Return tt
       | Throws e => Raise e
       end,
       mkState w3
         (trace s ++
          [Ev_configPath None; Ev_getUserDefaultConfigPath;
           Ev_initConfigPath p;
           Ev_ShellExecute 0 None p None None (SW_SHOWNORMAL K)])).
Proof.
  intros s p w1 w2 w3 a Hattr Hdef Htruthy Hinit Hshell.
  unfold openUserConfigurationDirectory. unfold_monad. simpl.
  rewrite Hattr. simpl. rewrite Hdef. simpl. rewrite Htruthy. simpl.
  rewrite Hinit. simpl. rewrite Hshell. simpl.
  destruct a as [v|e]; f_equal; f_equal; trace_eq.
Qed.

(** X2: when initialising the configuration with the default path raises,
    the exception goes to the caller and the shell is not asked to open
    anything. *)
Theorem openUserConfigurationDirectory_init_failure_opens_nothing :
  forall (s : State W) (p : PyStr) (w1 w2 : W) (e : PyExc),
    os_configPath W os (world s) = None ->
    os_getUserDefaultConfigPath W os (world s) = (Gives p, w1) ->
    truthy p = true ->
    os_initConfigPath W os p w1 = (Throws e, w2) ->
    openUserConfigurationDirectory W os K s =
      (Raise e,
       mkState w2
         (trace s ++
          [Ev_configPath None; Ev_getUserDefaultConfigPath;
           Ev_initConfigPath p])).
Proof.
  intros s p w1 w2 e Hattr Hdef Htruthy Hinit.
  unfold openUserConfigurationDirectory. unfold_monad. simpl.
  rewrite Hattr. simpl. rewrite Hdef. simpl. rewrite Htruthy. simpl.
  rewrite Hinit. simpl. f_equal. f_equal. trace_eq.
Qed.

(** ** hasUiAccess *)

(** X3: [hasUiAccess] returns a boolean, and this boolean is [True]
    exactly when the token information query wrote a value whose 32 bits
    are not all zero; the results that [OpenProcessToken] and
    [GetTokenInformation] return play no part. *)
Theorem hasUiAccess_True_iff_nonzero_value_written :
  forall (s : State W) (process oret qret : Z) (otoken qval : option Z)
         (w1 w2 w3 : W),
    os_GetCurrentProcess W os (world s) = (process, w1) ->
    os_OpenProcessToken W os process (MAXIMUM_ALLOWED K) w1 =
      ((oret, otoken), w2) ->
    os_GetTokenInformation W os (token_after otoken) TokenUIAccess
      sizeof_DWORD w2 = ((qret, qval), w3) ->
    exists b : bool,
      fst (hasUiAccess W os K s) = Return b
      /\ (b = true <-> exists v, qval = Some v /\ v mod 2 ^ 32 <> 0).
Proof.
  intros s process oret qret otoken qval w1 w2 w3 E1 E2 E3.
  destruct (hasUiAccess_run W os K s)
    as (process' & w1' & oret' & otoken' & w2' & qret' & qval' & w3' & cret
        & w4 & F1 & F2 & F3 & _ & E).
  rewrite E1 in F1. inversion F1; subst process' w1'.
  rewrite E2 in F2. inversion F2; subst oret' otoken' w2'.
  rewrite E3 in F3. inversion F3; subst qret' qval' w3'.
  rewrite E. cbn [fst]. exists (flag_after qval).
  split; [reflexivity|].
  destruct qval as [v|]; unfold flag_after, DWORD_value.
  - split.
    + intros H. exists v. split; [reflexivity|].
      apply negb_true_iff, Z.eqb_neq in H. exact H.
    + intros (v' & Hv' & Hne). inversion Hv'; subst v'.
      apply Z.eqb_neq in Hne. rewrite Hne. reflexivity.
  - split; [discriminate|]. intros (v & Hv & _). discriminate.
Qed.

(** ** forceTerminateProcess *)

(** X4: with a handle to the process, [forceTerminateProcess] asks for
    termination with exit code 1, waits up to 2000 ms and closes the
    handle; it returns normally whatever [TerminateProcess] and the wait
    return, a wait that timed out included. *)
Theorem forceTerminateProcess_results_unchecked :
  forall (s : State W) (processID h : Z) (w1 w2 w3 w4 : W) (t r c : Z),
    let access := Z.lor (PROCESS_TERMINATE K) (SYNCHRONIZE K) in
    os_openProcess W os access false processID (world s) = (Gives h, w1) ->
    h <> 0 ->
    os_TerminateProcess W os h 1 w1 = (Gives t, w2) ->
    os_waitForSingleObject W os h 2000 w2 = (Gives r, w3) ->
    os_closeHandle W os h w3 = (Gives c, w4) ->
    forceTerminateProcess W os K processID s =
      (Return tt,
       mkState w4
         (trace s ++
          [Ev_openProcess access false processID (Gives h);
           Ev_TerminateProcess h 1;
           Ev_waitForSingleObject h 2000 (Gives r);
           Ev_closeHandle h])).
Proof.
  intros s processID h w1 w2 w3 w4 t r c access E1 Hh E2 E3 E4.
  apply Z.eqb_neq in Hh.
  unfold forceTerminateProcess. fold access. unfold_monad. simpl.
  rewrite E1. simpl. rewrite Hh. simpl. rewrite E2. simpl.
  rewrite E3. simpl. rewrite E4. simpl. f_equal. f_equal. trace_eq.
Qed.

(** X5: when [TerminateProcess] raises, the wait is skipped, the handle is
    still closed, and the exception goes to the caller. *)
Theorem forceTerminateProcess_terminate_failure_closes_handle :
  forall (s : State W) (processID h : Z) (w1 w2 w3 : W) (e : PyExc) (c : Z),
    let access := Z.lor (PROCESS_TERMINATE K) (SYNCHRONIZE K) in
    os_openProcess W os access false processID (world s) = (Gives h, w1) ->
    h <> 0 ->
    os_TerminateProcess W os h 1 w1 = (Throws e, w2) ->
    os_closeHandle W os h w2 = (Gives c, w3) ->
    forceTerminateProcess W os K processID s =
      (Raise e,
       mkState w3
         (trace s ++
          [Ev_openProcess access false processID (Gives h);
           Ev_TerminateProcess h 1;
           Ev_closeHandle h])).
Proof.
  intros s processID h w1 w2 w3 e c access E1 Hh E2 E3.
  apply Z.eqb_neq in Hh.
  unfold forceTerminateProcess. fold access. unfold_monad. simpl.
  rewrite E1. simpl. rewrite Hh. simpl. rewrite E2. simpl.
  rewrite E3. simpl. f_equal. f_equal. trace_eq.
Qed.

(** ** terminateRunningNVDA *)

(** X6: when posting the quit message raises, the exception goes to the
    caller before any process is opened: nothing is waited for and nothing
    is terminated. *)
Theorem terminateRunningNVDA_post_failure_stops :
  forall (s : State W) (window : Z) (ids : Z * Z) (w1 w2 : W) (e : PyExc),
    os_getWindowThreadProcessID W os window (world s) = (Gives ids, w1) ->
    os_PostMessage W os window (WM_QUIT K) 0 0 w1 = (Throws e, w2) ->
    terminateRunningNVDA W os K window s =
      (Raise e,
       mkState w2
         (trace s ++
          [Ev_getWindowThreadProcessID window;
           Ev_PostMessage window (WM_QUIT K) 0 0])).
Proof.
  intros s window ids w1 w2 e E1 E2.
  unfold terminateRunningNVDA. unfold_monad. simpl.
  rewrite E1. simpl. rewrite E2. simpl. f_equal. f_equal. trace_eq.
Qed.

(** X7: when closing the handle after the wait raises, that exception goes
    to the caller whatever the wait answered: a process whose wait timed
    out is then not terminated by force. *)
Theorem terminateRunningNVDA_close_failure_prevents_escalation :
  forall (s : State W) (window : Z) (ids : Z * Z) (w1 w2 w3 w4 w5 : W)
         (posted h : Z) (r : Answer Z) (e : PyExc),
    os_getWindowThreadProcessID W os window (world s) = (Gives ids, w1) ->
    os_PostMessage W os window (WM_QUIT K) 0 0 w1 = (Gives posted, w2) ->
    os_openProcess W os (SYNCHRONIZE K) false (fst ids) w2 = (Gives h, w3) ->
    h <> 0 ->
    os_waitForSingleObject W os h 4000 w3 = (r, w4) ->
    os_closeHandle W os h w4 = (Throws e, w5) ->
    terminateRunningNVDA W os K window s =
      (Raise e,
       mkState w5
         (trace s ++
          [Ev_getWindowThreadProcessID window;
           Ev_PostMessage window (WM_QUIT K) 0 0;
           Ev_openProcess (SYNCHRONIZE K) false (fst ids) (Gives h);
           Ev_waitForSingleObject h 4000 r;
           Ev_closeHandle h])).
Proof.
  intros s window ids w1 w2 w3 w4 w5 posted h r e E1 E2 E3 Hh E4 E5.
  apply Z.eqb_neq in Hh.
  unfold terminateRunningNVDA. unfold_monad. simpl.
  rewrite E1. simpl. rewrite E2. simpl. rewrite E3. simpl.
  rewrite Hh. simpl. rewrite E4. simpl.
  destruct r as [res|e']; simpl; rewrite E5; simpl;
    f_equal; f_equal; trace_eq.
Qed.

(** X8: the whole forced path.  The process ID found for the window is the
    one opened for the wait and, after the wait has timed out and that
    handle is closed, the one opened again for the termination; the thread
    ID is not used.  The call returns normally. *)
Theorem terminateRunningNVDA_forced_path :
  forall (s : State W) (window : Z) (ids : Z * Z)
         (w1 w2 w3 w4 w5 w6 w7 w8 w9 : W)
         (posted h res c h' t r c' : Z),
    let processID := fst ids in
    let access := Z.lor (PROCESS_TERMINATE K) (SYNCHRONIZE K) in
    os_getWindowThreadProcessID W os window (world s) = (Gives ids, w1) ->
    os_PostMessage W os window (WM_QUIT K) 0 0 w1 = (Gives posted, w2) ->
    os_openProcess W os (SYNCHRONIZE K) false processID w2 = (Gives h, w3) ->
    h <> 0 ->
    os_waitForSingleObject W os h 4000 w3 = (Gives res, w4) ->
    res <> 0 ->
    os_closeHandle W os h w4 = (Gives c, w5) ->
    os_openProcess W os access false processID w5 = (Gives h', w6) ->
    h' <> 0 ->
    os_TerminateProcess W os h' 1 w6 = (Gives t, w7) ->
    os_waitForSingleObject W os h' 2000 w7 = (Gives r, w8) ->
    os_closeHandle W os h' w8 = (Gives c', w9) ->
    terminateRunningNVDA W os K window s =
      (Return tt,
       mkState w9
         (trace s ++
          [Ev_getWindowThreadProcessID window;
           Ev_PostMessage window (WM_QUIT K) 0 0;
           Ev_openProcess (SYNCHRONIZE K) false processID (Gives h);
           Ev_waitForSingleObject h 4000 (Gives res);
           Ev_closeHandle h;
           Ev_openProcess access false processID (Gives h');
           Ev_TerminateProcess h' 1;
           Ev_waitForSingleObject h' 2000 (Gives r);
           Ev_closeHandle h'])).
Proof.
  intros s window ids w1 w2 w3 w4 w5 w6 w7 w8 w9 posted h res c h' t r c'
         processID access E1 E2 E3 Hh E4 Hres E5 E6 Hh' E7 E8 E9.
  apply Z.eqb_neq in Hh. apply Z.eqb_neq in Hres. apply Z.eqb_neq in Hh'.
  unfold terminateRunningNVDA, forceTerminateProcess.
  fold processID. fold access. unfold_monad. simpl.
  rewrite E1. simpl. fold processID. rewrite E2. simpl. rewrite E3. simpl.
  rewrite Hh. simpl. rewrite E4. simpl. rewrite E5. simpl.
  rewrite Hres. simpl. rewrite E6. simpl. rewrite Hh'. simpl.
  rewrite E7. simpl. rewrite E8. simpl. rewrite E9. simpl.
  f_equal. f_equal. trace_eq.
Qed.

End Extras.

Section ExtrasExec.

Variable W : Type.
Variable os : OS W.
Variable K : WinConstants.

(** ** execElevated *)

Lemma queue_event_wait_path (d : list Event) :
  forallb is_queue_event d = true -> forallb is_wait_path_event d = true.
Proof.
  induction d as [|e d IH]; simpl; [reflexivity|].
  intros H. apply andb_true_iff in H. destruct H as [He Hd].
  rewrite (IH Hd), andb_true_r.
  destruct e; simpl in He; try discriminate; reflexivity.
Qed.

(** The pump calls nothing but the wait and the three functions of the
    message queue. *)
Lemma pump_wait_path_events (n : nat) (h : Z) :
  forall s, exists d,
    trace (snd (pump W os n h s)) = trace s ++ d
    /\ forallb is_wait_path_event d = true.
Proof.
  induction n as [|n IH]; intros s; simpl.
  - exists []. split; [symmetry; apply app_nil_r|reflexivity].
  - unfold_monad. simpl.
    destruct (os_MsgWaitForMultipleObjects W os h (-1) 255 (world s))
      as [woke w1]; simpl.
    destruct (woke =? 1); simpl; [|eexists; split; reflexivity].
    match goal with
    | |- context [drain W os n ?st] =>
        destruct (drain_trace W os n st) as [d [Ed Qd]];
        destruct (drain W os n st) as [[[]|e|] s2]; simpl in *
    end.
    + destruct (IH s2) as [d' [Ed' Qd']]. rewrite Ed', Ed.
      exists ([Ev_MsgWaitForMultipleObjects h (-1) 255 woke] ++ d ++ d').
      split; [trace_eq|]. simpl.
      rewrite forallb_app, Qd', (queue_event_wait_path d Qd). reflexivity.
    + rewrite Ed.
      exists ([Ev_MsgWaitForMultipleObjects h (-1) 255 woke] ++ d).
      split; [trace_eq|]. simpl. apply (queue_event_wait_path d Qd).
    + rewrite Ed.
      exists ([Ev_MsgWaitForMultipleObjects h (-1) 255 woke] ++ d).
      split; [trace_eq|]. simpl. apply (queue_event_wait_path d Qd).
Qed.

(** X9: what [execElevated] hands to [ShellExecuteEx], and when.  The file
    is the absolute path, the parameters are the joined command line (none
    when no parameters are given), the window is hidden, the mask keeps
    the child's handle exactly when [wait] is set, and the verb "runas" is
    asked for unless [handleAlreadyElevated] is set and [IsUserAnAdmin]
    answers non-zero.  [IsUserAnAdmin] is called once, before the launch,
    when [handleAlreadyElevated] is set, and never otherwise: what follows
    the launch is only the wait, the message queue, the exit code and the
    close, and nothing at all without [wait]. *)
Theorem execElevated_launch_arguments :
  forall (n : nat) (path : string) (params : option (list string))
         (wait hae : bool) (s : State W),
    let file := os_abspath W os path (world s) in
    let admin := fst (os_IsUserAnAdmin W os (world s)) in
    let w0 := if hae then snd (os_IsUserAnAdmin W os (world s))
              else world s in
    let asked := if hae then [Ev_IsUserAnAdmin] else [] in
    let verb := if negb hae || (admin =? 0) then Some "runas" else None in
    let sei :=
      mkSEI file (option_map (os_list2cmdline W os) params) (SW_HIDE K) verb
        (if wait then SEE_MASK_NOCLOSEPROCESS K else 0) 0 in
    let a := fst (os_ShellExecuteEx W os sei w0) in
    exists rest,
      since s (snd (execElevated W os K n path params wait hae s)) =
        [Ev_abspath path] ++ asked ++ [Ev_ShellExecuteEx sei a] ++ rest
      /\ forallb is_wait_path_event rest = true
      /\ ~ In Ev_IsUserAnAdmin rest
      /\ (wait = false -> rest = []).
Proof.
  intros n path params wait hae s file admin w0 asked verb sei a.
  pose proof (execElevated_launch_exact W os K path params wait hae s)
    as Hlaunch.
  cbv zeta in Hlaunch.
  fold file admin in Hlaunch. fold w0 asked verb in Hlaunch.
  fold sei in Hlaunch. fold a in Hlaunch.
  remember ([Ev_abspath path] ++ asked ++ [Ev_ShellExecuteEx sei a]) as pre
    eqn:Hpre.
  assert (G : exists rest,
             trace (snd (execElevated W os K n path params wait hae s)) =
               trace s ++ pre ++ rest
             /\ forallb is_wait_path_event rest = true
             /\ (wait = false -> rest = [])).
  { rewrite execElevated_split. clear Hpre.
    destruct a as [hp|e]; simpl in Hlaunch.
    2:{ rewrite (bind_Raise _ _ _ _ _ Hlaunch). exists [].
        simpl. rewrite app_nil_r. auto. }
    rewrite (bind_Return _ _ _ _ _ Hlaunch).
    destruct wait; [|exists []; simpl; rewrite app_nil_r; auto].
    unfold try_finally, bind, call, ret.
    match goal with
    | |- context [pump W os n hp ?st] =>
        destruct (pump_wait_path_events n hp st) as [d [Ed Qd]];
        destruct (pump W os n hp st) as [[[]|e|] s2]; simpl in Ed; simpl
    end.
    - destruct (os_GetExitCodeProcess W os hp (world s2)) as [[code|e] w3];
        simpl;
        destruct (os_closeHandle W os hp w3) as [[k|e'] w4]; simpl;
        exists (d ++ [Ev_GetExitCodeProcess hp; Ev_closeHandle hp]);
        (split; [rewrite Ed; repeat rewrite <- app_assoc; reflexivity|]);
        (split; [rewrite forallb_app, Qd; reflexivity|discriminate]).
    - destruct (os_closeHandle W os hp (world s2)) as [[k|e'] w4]; simpl;
        exists (d ++ [Ev_closeHandle hp]);
        (split; [rewrite Ed; repeat rewrite <- app_assoc; reflexivity|]);
        (split; [rewrite forallb_app, Qd; reflexivity|discriminate]).
    - exists d. split; [rewrite Ed; repeat rewrite <- app_assoc; reflexivity|].
      split; [exact Qd|discriminate]. }
  destruct G as (rest & G & Hrest & Hnowait). exists rest.
  split; [|split; [exact Hrest|split; [|exact Hnowait]]].
  - rewrite (since_app _ _ _ G). subst pre.
    repeat rewrite <- app_assoc. reflexivity.
  - intros Hin.
    pose proof (proj1 (forallb_forall is_wait_path_event rest) Hrest
                  Ev_IsUserAnAdmin Hin) as Hbad.
    discriminate Hbad.
Qed.

(** X10: when the launch raises (the elevation is refused), the exception
    goes to the caller with whatever budget of rounds: the call does not
    enter the pump and closes no handle. *)
Theorem execElevated_launch_failure :
  forall (n : nat) (path : string) (params : option (list string))
         (wait hae : bool) (s s1 : State W) (e : PyExc),
    execElevated_launch W os K path params wait hae s = (Raise e, s1) ->
    execElevated W os K n path params wait hae s = (Raise e, s1).
Proof.
  intros n path params wait hae s s1 e Hlaunch.
  rewrite execElevated_split.
  exact (bind_Raise _ _ _ _ _ Hlaunch).
Qed.

(** The inner loop of the pump.  When it returns, every message that
    [PeekMessageW] reported was translated and then dispatched, once each
    and in turn, and the loop ended at the first [PeekMessageW] that
    answered 0. *)
Lemma drain_events :
  forall (n : nat) (s s' : State W),
    drain W os n s = (Return tt, s') ->
    exists answers : list Z,
      Forall (fun got => got <> 0) answers
      /\ trace s' = trace s ++ drained answers ++ [Ev_PeekMessageW 0].
Proof.
  induction n as [|n IH]; intros s s' H; simpl in H; [discriminate|].
  unfold_monad. simpl in H.
  destruct (os_PeekMessageW W os (world s)) as [got w1]; simpl in H.
  destruct (got =? 0) eqn:Hgot; simpl in H.
  - apply Z.eqb_eq in Hgot. subst got. inversion H; subst s'. simpl.
    exists []. split; [constructor|reflexivity].
  - apply Z.eqb_neq in Hgot.
    destruct (os_TranslateMessage W os w1) as [x w2]; simpl in H.
    destruct (os_DispatchMessageW W os w2) as [y w3]; simpl in H.
    destruct (IH _ _ H) as (answers & Hall & Et).
    exists (got :: answers). split; [constructor; assumption|].
    rewrite Et. simpl. trace_eq.
Qed.

(** X11: the message pump.  When it returns, it has gone through rounds
    in each of which the wait woke for a message and the queue was then
    drained to the end (every message peeked was translated and then
    dispatched, until [PeekMessageW] answered 0), and it stopped at the
    first wait that woke for something else than a message. *)
Theorem pump_drains_the_queue_at_every_wake :
  forall (n : nat) (h : Z) (s s' : State W),
    pump W os n h s = (Return tt, s') ->
    exists (rounds : list (list Z)) (woke : Z),
      Forall (Forall (fun got => got <> 0)) rounds
      /\ woke <> 1
      /\ trace s' =
           trace s ++ pumped h rounds
             ++ [Ev_MsgWaitForMultipleObjects h (-1) 255 woke].
Proof.
  induction n as [|n IH]; intros h s s' H; simpl in H; [discriminate|].
  unfold bind, ccall_logged, ret in H. simpl in H.
  destruct (os_MsgWaitForMultipleObjects W os h (-1) 255 (world s))
    as [woke w1]; simpl in H.
  destruct (woke =? 1) eqn:Hw; simpl in H.
  - apply Z.eqb_eq in Hw. subst woke.
    match type of H with
    | context [drain W os n ?st] =>
        destruct (drain W os n st) as [[[]|e|] s2] eqn:Hd;
        try discriminate
    end.
    destruct (drain_events _ _ _ Hd) as (answers & Hall & Ed).
    destruct (IH h s2 s' H) as (rounds & woke & Hrounds & Hne & Et).
    exists (answers :: rounds), woke.
    split; [constructor; assumption|].
    split; [exact Hne|].
    rewrite Et, Ed. simpl. repeat rewrite <- app_assoc. reflexivity.
  - inversion H; subst s'. simpl.
    exists [], woke. split; [constructor|].
    split; [apply Z.eqb_neq; exact Hw|reflexivity].
Qed.

(** ** getRunningProcessInstances *)



End ExtrasExec.

(** ** The escaping of the name *)

Lemma string_length_app (a b : string) :
  String.length (a ++ b) = (String.length a + String.length b)%nat.
Proof. induction a as [|c a IH]; simpl; [reflexivity|]. now rewrite IH. Qed.

Lemma string_app_inv_head (p x y : string) :
  (p ++ x = p ++ y)%string -> x = y.
Proof.
  induction p as [|c p IH]; simpl; intros H; [exact H|].
  injection H as H. exact (IH H).
Qed.

Lemma string_app_inv_tail (q : string) :
  forall x y : string, (x ++ q = y ++ q)%string -> x = y.
Proof.
  induction x as [|c x IH]; intros [|d y] H; simpl in H.
  - reflexivity.
  - exfalso. apply (f_equal String.length) in H. simpl in H.
    rewrite string_length_app in H. lia.
  - exfalso. apply (f_equal String.length) in H. simpl in H.
    rewrite string_length_app in H. lia.
  - injection H as Hc H. subst d. f_equal. exact (IH y H).
Qed.

Lemma double_backslashes_injective :
  forall a b : string,
    double_backslashes a = double_backslashes b -> a = b.
Proof.
  induction a as [|c a IH]; intros [|d b] H; simpl in H.
  - reflexivity.
  - destruct (Ascii.eqb d "092"); discriminate.
  - destruct (Ascii.eqb c "092"); discriminate.
  - destruct (Ascii.eqb_spec c "092") as [Hc|Hc];
      destruct (Ascii.eqb_spec d "092") as [Hd|Hd].
    + subst c d. injection H as H. f_equal. exact (IH b H).
    + injection H as Hd' _. exfalso. apply Hd. symmetry. exact Hd'.
    + injection H as Hc' _. exfalso. apply Hc. exact Hc'.
    + injection H as Hcd H. subst d. f_equal. exact (IH b H).
Qed.

(** X13: two names give the same query only when they are the same name:
    the escaping loses nothing. *)
Theorem query_text_injective :
  forall a b : string, query_text a = query_text b <-> a = b.
Proof.
  intros a b. split; [|intros; subst; reflexivity].
  unfold query_text. rewrite !escapedName_doubles. intros H.
  apply string_app_inv_head, string_app_inv_tail in H.
  exact (double_backslashes_injective a b H).
Qed.

(** X14: the escaped name is one character longer for every backslash of
    the name; a name without a backslash is left as it is; and the
    escaping of a concatenation is the concatenation of the escapings. *)
Theorem escapedName_length_and_concatenation :
  (forall name : string,
      String.length (escapedName name) =
      (String.length name + count_backslashes name)%nat)
  /\ (forall name : string,
        count_backslashes name = 0%nat -> escapedName name = name)
  /\ (forall a b : string,
        escapedName (a ++ b) = (escapedName a ++ escapedName b)%string).
Proof.
  split; [|split].
  - intros name. rewrite escapedName_doubles.
    induction name as [|c name IH]; simpl; [reflexivity|].
    destruct (Ascii.eqb c "092"); simpl; rewrite IH; lia.
  - intros name. rewrite escapedName_doubles.
    induction name as [|c name IH]; simpl; [reflexivity|].
    destruct (Ascii.eqb c "092"); [discriminate|].
    intros H. now rewrite (IH H).
  - intros a b. rewrite !escapedName_doubles.
    apply double_backslashes_app.
Qed.

(** * The further properties on the scripted machines *)

Module MoreRuns.

Import Fixture.
Import Faults.

Lemma openUserConfigurationDirectory_initialises_then_opens_witness :
  openUserConfigurationDirectory Machine os Win32 (start healthy) =
    (Return tt,
     mkState healthy
       [Ev_configPath None; Ev_getUserDefaultConfigPath;
        Ev_initConfigPath (PyS "C:/Users/u/AppData/Roaming/nvda");
        Ev_ShellExecute 0 None (PyS "C:/Users/u/AppData/Roaming/nvda")
          None None 1]).
Proof.
  exact (openUserConfigurationDirectory_initialises_then_opens
           Machine os Win32 (start healthy)
           (PyS "C:/Users/u/AppData/Roaming/nvda") healthy healthy healthy
           (Gives 42) eq_refl eq_refl eq_refl eq_refl eq_refl).
Defined.

Lemma openUserConfigurationDirectory_init_failure_opens_nothing_witness :
  openUserConfigurationDirectory Machine (faulty F_initConfigPath) Win32
    (start healthy) =
    (Raise denied,
     mkState healthy
       [Ev_configPath None; Ev_getUserDefaultConfigPath;
        Ev_initConfigPath (PyS "C:/Users/u/AppData/Roaming/nvda")]).
Proof.
  exact (openUserConfigurationDirectory_init_failure_opens_nothing
           Machine (faulty F_initConfigPath) Win32 (start healthy)
           (PyS "C:/Users/u/AppData/Roaming/nvda") healthy healthy denied
           eq_refl eq_refl eq_refl eq_refl).
Defined.

(** The query reports UI access: [True]. *)
Lemma hasUiAccess_True_iff_nonzero_value_written_witness :
  exists b : bool,
    fst (hasUiAccess Machine os Win32 (start healthy)) = Return b
    /\ (b = true <-> exists v, Some 1 = Some v /\ v mod 2 ^ 32 <> 0).
Proof.
  exact (hasUiAccess_True_iff_nonzero_value_written Machine os Win32
           (start healthy) (-1) 1 1 (Some 500) (Some 1)
           healthy healthy healthy eq_refl eq_refl eq_refl).
Defined.

(** The wait after the termination times out, and the call returns. *)
Lemma forceTerminateProcess_results_unchecked_witness :
  forceTerminateProcess Machine os Win32 70 (start stubborn) =
    (Return tt,
     mkState stubborn
       [Ev_openProcess 1048577 false 70 (Gives 700);
        Ev_TerminateProcess 700 1;
        Ev_waitForSingleObject 700 2000 (Gives WAIT_TIMEOUT);
        Ev_closeHandle 700]).
Proof.
  assert (Hopen : 700 <> 0) by discriminate.
  exact (forceTerminateProcess_results_unchecked Machine os Win32
           (start stubborn) 70 700 stubborn stubborn stubborn stubborn
           1 WAIT_TIMEOUT 1 eq_refl Hopen eq_refl eq_refl eq_refl).
Defined.

Lemma forceTerminateProcess_terminate_failure_closes_handle_witness :
  forceTerminateProcess Machine (faulty F_TerminateProcess) Win32 70
    (start healthy) =
    (Raise denied,
     mkState healthy
       [Ev_openProcess 1048577 false 70 (Gives 700);
        Ev_TerminateProcess 700 1;
        Ev_closeHandle 700]).
Proof.
  assert (Hopen : 700 <> 0) by discriminate.
  exact (forceTerminateProcess_terminate_failure_closes_handle
           Machine (faulty F_TerminateProcess) Win32 (start healthy) 70 700
           healthy healthy healthy denied 1 eq_refl Hopen eq_refl eq_refl).
Defined.

Lemma terminateRunningNVDA_post_failure_stops_witness :
  terminateRunningNVDA Machine (faulty F_PostMessage) Win32 7
    (start healthy) =
    (Raise denied,
     mkState healthy
       [Ev_getWindowThreadProcessID 7; Ev_PostMessage 7 18 0 0]).
Proof.
  exact (terminateRunningNVDA_post_failure_stops
           Machine (faulty F_PostMessage) Win32 (start healthy) 7 (70, 1)
           healthy healthy denied eq_refl eq_refl).
Defined.

(** The wait timed out, the close raised: no forced termination. *)
Lemma terminateRunningNVDA_close_failure_prevents_escalation_witness :
  terminateRunningNVDA Machine (faulty F_closeHandle) Win32 7
    (start stubborn) =
    (Raise denied,
     mkState stubborn
       [Ev_getWindowThreadProcessID 7;
        Ev_PostMessage 7 18 0 0;
        Ev_openProcess 1048576 false 70 (Gives 700);
        Ev_waitForSingleObject 700 4000 (Gives WAIT_TIMEOUT);
        Ev_closeHandle 700]).
Proof.
  assert (Hopen : 700 <> 0) by discriminate.
  exact (terminateRunningNVDA_close_failure_prevents_escalation
           Machine (faulty F_closeHandle) Win32 (start stubborn) 7 (70, 1)
           stubborn stubborn stubborn stubborn stubborn 1 700
           (Gives WAIT_TIMEOUT) denied
           eq_refl eq_refl eq_refl Hopen eq_refl eq_refl).
Defined.

Lemma terminateRunningNVDA_forced_path_witness :
  terminateRunningNVDA Machine os Win32 7 (start stubborn) =
    (Return tt,
     mkState stubborn
       [Ev_getWindowThreadProcessID 7;
        Ev_PostMessage 7 18 0 0;
        Ev_openProcess 1048576 false 70 (Gives 700);
        Ev_waitForSingleObject 700 4000 (Gives 258);
        Ev_closeHandle 700;
        Ev_openProcess 1048577 false 70 (Gives 700);
        Ev_TerminateProcess 700 1;
        Ev_waitForSingleObject 700 2000 (Gives 258);
        Ev_closeHandle 700]).
Proof.
  assert (Hopen : 700 <> 0) by discriminate.
  assert (Hres : 258 <> 0) by discriminate.
  exact (terminateRunningNVDA_forced_path Machine os Win32
           (start stubborn) 7 (70, 1)
           stubborn stubborn stubborn stubborn stubborn stubborn stubborn
           stubborn stubborn 1 700 258 1 700 1 258 1
           eq_refl eq_refl eq_refl Hopen eq_refl Hres eq_refl
           eq_refl Hopen eq_refl eq_refl eq_refl).
Defined.

(** The elevation is refused: no pump, whatever the budget. *)
Lemma execElevated_launch_failure_witness :
  execElevated Machine (faulty F_ShellExecuteEx) Win32 0 "nvda_slave.exe"
    None true false (start healthy) =
    (Raise denied,
     mkState healthy
       [Ev_abspath "nvda_slave.exe";
        Ev_ShellExecuteEx
          (mkSEI "nvda_slave.exe" None 0 (Some "runas") 64 0)
          (Throws denied)]).
Proof.
  exact (execElevated_launch_failure Machine (faulty F_ShellExecuteEx) Win32
           0 "nvda_slave.exe" None true false (start healthy)
           (mkState healthy
              [Ev_abspath "nvda_slave.exe";
               Ev_ShellExecuteEx
                 (mkSEI "nvda_slave.exe" None 0 (Some "runas") 64 0)
                 (Throws denied)])
           denied eq_refl).
Defined.

(** Two wakes for messages, two messages at the first and one at the
    second, then the child's handle is signalled. *)
Lemma pump_drains_the_queue_at_every_wake_witness :
  exists (rounds : list (list Z)) (woke : Z),
    Forall (Forall (fun got => got <> 0)) rounds
    /\ woke <> 1
    /\ trace signalled =
         trace launched ++ pumped 900 rounds
           ++ [Ev_MsgWaitForMultipleObjects 900 (-1) 255 woke].
Proof.
  exact (pump_drains_the_queue_at_every_wake Machine os 4 900 launched
           signalled eq_refl).
Defined.

Example pump_two_rounds :
  trace signalled =
    trace launched ++ pumped 900 [[1; 1]; [1]]
      ++ [Ev_MsgWaitForMultipleObjects 900 (-1) 255 0].
Proof. reflexivity. Qed.

Example drain_two_messages :
  trace (snd (drain Machine os 3 (start queued))) =
    drained [1; 1] ++ [Ev_PeekMessageW 0].
Proof. reflexivity. Qed.


(** An administrator's process that asked for [handleAlreadyElevated] is
    launched with "runas" on this machine, where [IsUserAnAdmin] answers
    0. *)
Example execElevated_asks_IsUserAnAdmin :
  since (start healthy)
    (snd (execElevated Machine os Win32 0 "nvda_slave.exe"
            (Some ["--install"; "--silent"]) false true (start healthy))) =
    [Ev_abspath "nvda_slave.exe"; Ev_IsUserAnAdmin;
     Ev_ShellExecuteEx
       (mkSEI "nvda_slave.exe" (Some "--install --silent") 0 (Some "runas")
          0 0)
       (Gives 0)].
Proof. reflexivity. Qed.

Example escapedName_foo :
  escapedName foo_exe =
    ("C:" ++ backslash ++ backslash ++ "app" ++ backslash ++ backslash
       ++ "foo.exe")%string
  /\ String.length (escapedName foo_exe) = 16%nat
  /\ count_backslashes foo_exe = 2%nat.
Proof. repeat split; reflexivity. Qed.

End MoreRuns.
